(** * Vite asset loading for the Starlite template engine

    A shallow embedding of [src/app/domain/web/vite.py]: the Vite
    configuration, the manifest loader [ViteAssetLoader], the Jinja engine
    adapter [ViteTemplateEngine] and the deferred [ViteTemplateConfig].

    Python strings are [string]; a [dict] whose order does not matter (the
    manifest) is a [gmap]; a [dict] whose insertion order shows in the output
    (script attributes) is an association list.  Exceptions are values of
    [exn]; a computation ends in [Ok], [Raise] or, for the one recursive
    method, [OutOfFuel] when the recursion is deeper than the fuel given. *)

From Stdlib Require Import ZArith Ascii List DecimalString Lia.
From Stdlib Require String.
From stdpp Require Import base option list gmap strings relations.

(** ** Python primitives *)

Module Py.

(** Characters that a Rocq string literal cannot hold directly. *)
Definition dq : string := String (ascii_of_nat 34) EmptyString.
Definition nl : string := String (ascii_of_nat 10) EmptyString.

(** [sep.join(l)] *)
Definition join (sep : string) (l : list string) : string := String.concat sep l.

(** [str(n)] for an [int] *)
Definition str_of_int (n : Z) : string := NilZero.string_of_int (Z.to_int n).

(** [pathlib.Path], as its tuple of parts; [p / name] appends a part. *)
Definition Path := list string.
Definition path_div (p : Path) (name : string) : Path := p ++ [name].
Definition path_str (p : Path) : string := join "/" p.

(** The exceptions the module raises or lets through. *)
#[warnings="-register-all"] Inductive exn : Type :=
| RuntimeError (msg : string) (args : list string) (cause : option exn)
| FileNotFoundError (filename : Path)
| JSONDecodeError (doc : string)
| KeyError (key : string)
| ImproperlyConfiguredException (detail : string).

Inductive outcome (A : Type) : Type :=
| Ok (a : A)
| Raise (e : exn)
| OutOfFuel.
Arguments Ok {A} a.
Arguments Raise {A} e.
Arguments OutOfFuel {A}.

Definition is_RuntimeError (e : exn) : bool :=
  match e with RuntimeError _ _ _ => true | _ => false end.

End Py.
Export Py.

(** ** [urllib.parse.urljoin]

  The standard library's function, transcribed from CPython 3.11
  ([Lib/urllib/parse.py]) for [str] arguments.  The validity checks of
  [urlsplit] that raise [ValueError] (unbalanced or ill-formed bracketed
  hosts, hosts that change under NFKC normalisation) are not part of the
  model: on such inputs it joins as if the check had passed. *)

Module Url.

Definition code (c : ascii) : nat := nat_of_ascii c.

Definition is_alpha (c : ascii) : bool :=
  let n := code c in
  (65 <=? n) && (n <=? 90) || (97 <=? n) && (n <=? 122).

Definition is_digit (c : ascii) : bool :=
  let n := code c in (48 <=? n) && (n <=? 57).

(** [c in scheme_chars] *)
Definition is_scheme_char (c : ascii) : bool :=
  is_alpha c || is_digit c
  || Ascii.eqb c "+" || Ascii.eqb c "-" || Ascii.eqb c ".".

Definition lower_char (c : ascii) : ascii :=
  let n := code c in
  if (65 <=? n) && (n <=? 90) then ascii_of_nat (n + 32) else c.

Fixpoint lower (s : string) : string :=
  match s with
  | EmptyString => EmptyString
  | String c s' => String (lower_char c) (lower s')
  end.

Fixpoint all_chars (p : ascii -> bool) (s : string) : bool :=
  match s with
  | EmptyString => true
  | String c s' => p c && all_chars p s'
  end.

Fixpoint filter_chars (p : ascii -> bool) (s : string) : string :=
  match s with
  | EmptyString => EmptyString
  | String c s' => if p c then String c (filter_chars p s') else filter_chars p s'
  end.

(** [url.lstrip(_WHATWG_C0_CONTROL_OR_SPACE)] *)
Fixpoint lstrip_c0 (s : string) : string :=
  match s with
  | String c s' => if code c <=? 32 then lstrip_c0 s' else s
  | EmptyString => EmptyString
  end.

(** removal of [_UNSAFE_URL_BYTES_TO_REMOVE] *)
Definition remove_unsafe (s : string) : string :=
  filter_chars (fun c => negb ((code c =? 9) || (code c =? 13) || (code c =? 10))) s.

(** [s.partition(c)] when [c] occurs: the text before and after the first
    occurrence; [None] when it does not occur. *)
Fixpoint cut (p : ascii -> bool) (s : string) : option (string * string) :=
  match s with
  | EmptyString => None
  | String c s' =>
      if p c then Some (EmptyString, s')
      else match cut p s' with
           | Some (a, b) => Some (String c a, b)
           | None => None
           end
  end.

(** the text before the first character satisfying [p], and the rest from
    that character on *)
Fixpoint span_until (p : ascii -> bool) (s : string) : string * string :=
  match s with
  | EmptyString => (EmptyString, EmptyString)
  | String c s' =>
      if p c then (EmptyString, s)
      else let '(a, b) := span_until p s' in (String c a, b)
  end.

(** [s.split(c)] *)
Fixpoint split (c : ascii) (s : string) : list string :=
  match s with
  | EmptyString => [EmptyString]
  | String d s' =>
      if Ascii.eqb d c then EmptyString :: split c s'
      else match split c s' with
           | x :: xs => String d x :: xs
           | [] => [String d EmptyString]
           end
  end.

Definition is_char (c : ascii) : ascii -> bool := Ascii.eqb c.

Definition mem (s : string) (l : list string) : bool := existsb (String.eqb s) l.

Definition uses_relative : list string :=
  [EmptyString; "ftp"; "http"; "gopher"; "nntp"; "imap"; "wais"; "file"; "https";
   "shttp"; "mms"; "prospero"; "rtsp"; "rtspu"; "sftp"; "svn"; "svn+ssh";
   "ws"; "wss"].

Definition uses_netloc : list string :=
  [EmptyString; "ftp"; "http"; "gopher"; "nntp"; "telnet"; "imap"; "wais"; "file";
   "mms"; "https"; "shttp"; "snews"; "prospero"; "rtsp"; "rtspu"; "rsync";
   "svn"; "svn+ssh"; "sftp"; "nfs"; "git"; "git+ssh"; "ws"; "wss"].

Definition uses_params : list string :=
  [EmptyString; "ftp"; "hdl"; "prospero"; "http"; "imap"; "https"; "shttp"; "rtsp";
   "rtspu"; "sip"; "sips"; "mms"; "sftp"; "tel"].

Record SplitResult := mkSplit
  { s_scheme : string; s_netloc : string; s_path : string;
    s_query : string; s_fragment : string }.

Record ParseResult := mkParse
  { scheme : string; netloc : string; path : string; params : string;
    query : string; fragment : string }.

Definition starts_with_2slashes (s : string) : option string :=
  match s with
  | String "/" (String "/" r) => Some r
  | _ => None
  end.

(** [_splitnetloc(url, 2)], given the text after the two slashes *)
Definition _splitnetloc (after : string) : string * string :=
  span_until (fun c => is_char "/" c || is_char "?" c || is_char "#" c) after.

(** [urlsplit(url, scheme)]; the default [scheme] handed in by [urljoin] is
    empty or a scheme already split off, which stripping leaves as it is. *)
Definition urlsplit (url : string) (scheme : string) : SplitResult :=
  let url := remove_unsafe (lstrip_c0 url) in
  let '(scheme, url) :=
    match cut (is_char ":") url with
    | Some (String c0 pre, post) =>
        if is_alpha c0 && all_chars is_scheme_char (String c0 pre)
        then (lower (String c0 pre), post)
        else (scheme, url)
    | _ => (scheme, url)
    end in
  let '(netloc, url) :=
    match starts_with_2slashes url with
    | Some after => _splitnetloc after
    | None => (EmptyString, url)
    end in
  let '(url, fragment) :=
    match cut (is_char "#") url with
    | Some (a, b) => (a, b)
    | None => (url, EmptyString)
    end in
  let '(url, query) :=
    match cut (is_char "?") url with
    | Some (a, b) => (a, b)
    | None => (url, EmptyString)
    end in
  mkSplit scheme netloc url query fragment.

(** [_splitparams(url)], called when [';' in url] *)
Definition _splitparams (url : string) : string * string :=
  let parts := split "/" url in
  let lastseg := List.last parts EmptyString in
  let front := List.removelast parts in
  match cut (is_char ";") lastseg with
  | Some (a, b) => (String.concat "/" (front ++ [a]), b)
  | None => (url, EmptyString)
  end.

Definition contains (c : ascii) (s : string) : bool :=
  match cut (is_char c) s with Some _ => true | None => false end.

Definition urlparse (url : string) (scheme : string) : ParseResult :=
  let r := urlsplit url scheme in
  let '(url, params) :=
    if mem (s_scheme r) uses_params && contains ";" (s_path r)
    then _splitparams (s_path r)
    else (s_path r, EmptyString) in
  mkParse (s_scheme r) (s_netloc r) url params (s_query r) (s_fragment r).

Definition nonempty (s : string) : bool :=
  match s with EmptyString => false | _ => true end.

Definition starts_with_slash (s : string) : bool :=
  match s with String "/" _ => true | _ => false end.

Definition urlunsplit (scheme netloc url query fragment : string) : string :=
  let url :=
    if nonempty netloc
       || (nonempty scheme && mem scheme uses_netloc
           && negb (match starts_with_2slashes url with Some _ => true | None => false end))
    then
      let url := if nonempty url && negb (starts_with_slash url)
                 then "/" +:+ url else url in
      "//" +:+ netloc +:+ url
    else url in
  let url := if nonempty scheme then scheme +:+ ":" +:+ url else url in
  let url := if nonempty query then url +:+ "?" +:+ query else url in
  if nonempty fragment then url +:+ "#" +:+ fragment else url.

Definition urlunparse (r : ParseResult) : string :=
  let url := if nonempty (params r) then path r +:+ ";" +:+ params r else path r in
  urlunsplit (scheme r) (netloc r) url (query r) (fragment r).

(** [segments[1:-1] = filter(None, segments[1:-1])] *)
Definition squeeze_middle (segments : list string) : list string :=
  match segments with
  | [] => []
  | x :: rest =>
      match rest with
      | [] => [x]
      | _ => x :: List.filter nonempty (List.removelast rest)
               ++ [List.last rest EmptyString]
      end
  end.

(** the loop over [segments] that builds [resolved_path] *)
Definition resolve (segments : list string) : list string :=
  fold_left
    (fun resolved seg =>
       if String.eqb seg ".." then List.removelast resolved
       else if String.eqb seg "." then resolved
       else resolved ++ [seg])
    segments [].

Definition urljoin (base url : string) : string :=
  if negb (nonempty base) then url
  else if negb (nonempty url) then base
  else
    let b := urlparse base EmptyString in
    let u := urlparse url (scheme b) in
    if negb (String.eqb (scheme u) (scheme b)) || negb (mem (scheme u) uses_relative)
    then url
    else if mem (scheme u) uses_netloc && nonempty (netloc u)
    then urlunparse u
    else
      let netloc' := if mem (scheme u) uses_netloc then netloc b else netloc u in
      if negb (nonempty (path u)) && negb (nonempty (params u)) then
        urlunparse (mkParse (scheme u) netloc' (path b) (params b)
                      (if nonempty (query u) then query u else query b)
                      (fragment u))
      else
        let base_parts := split "/" (path b) in
        let base_parts :=
          if nonempty (List.last base_parts EmptyString)
          then List.removelast base_parts else base_parts in
        let segments :=
          if starts_with_slash (path u) then split "/" (path u)
          else squeeze_middle (base_parts ++ split "/" (path u)) in
        let resolved_path := resolve segments in
        let lastseg := List.last segments EmptyString in
        let resolved_path :=
          if String.eqb lastseg "." || String.eqb lastseg ".."
          then resolved_path ++ [EmptyString] else resolved_path in
        let joined := String.concat "/" resolved_path in
        urlunparse (mkParse (scheme u) netloc'
                      (if nonempty joined then joined else "/")
                      (params u) (query u) (fragment u)).

End Url.

(** ** The module [app.domain.web.vite] *)

Definition MANIFEST_NAME : string := "manifest.json".

(** [ViteConfig]; [port] is a Python [int]. *)
Record ViteConfig := mkViteConfig
  { hot_reload : bool;
    is_react : bool;
    static_url : string;
    static_dir : Path;
    host : string;
    protocol : string;
    port : Z;
    run_command : list string;
    build_command : list string }.

(** An entry of the manifest: the three keys the loader reads, each of which
    may be absent from the JSON object ([src], [isEntry], [dynamicImports] and
    [assets] are never read). *)
Record ManifestEntry := mkEntry
  { file : option string;
    css : option (list string);
    imports : option (list string) }.

Abbreviation Manifest := (gmap string ManifestEntry).

(** Script attributes, a [dict[str, str]] in insertion order. *)
Abbreviation Attrs := (list (string * string)).

(** The class attributes of [ViteAssetLoader]; [_instance] records whether
    the singleton has been created. *)
Record LoaderClass := mkLoaderClass
  { _instance : bool;
    _manifest : Manifest }.

(** [PathType] and the [directory] argument of the template configuration. *)
Inductive PathType := PStr (s : string) | PPath (p : Path).
Inductive Directory := DirNone | DirOne (p : PathType) | DirList (l : list PathType).

(** An engine object, known by its identity. *)
Record ViteTemplateEngine := mkEngine
  { engine_id : nat;
    engine_directory : Directory }.

(** What was run, in order: an instrumentation of the model, which the
    program cannot read. *)
Inductive Event :=
| EvConstruct (id : nat) (d : Directory)
| EvCallback (id : nat).

(** [markupsafe.Markup]: a string marked as trusted HTML. *)
Record Markup := mkMarkup { markup_str : string }.

Section Vite.

(** State outside the module that an [engine_callback] may change. *)
Context {U : Type}.

(** The program's state: the files on disk, the class attributes of the
    loader, the next fresh object identity and the user's state. *)
Record World := mkWorld
  { fs : gmap Path string;
    loader_cls : LoaderClass;
    next_id : nat;
    events : list Event;
    user : U }.

Definition M (A : Type) : Type := World -> outcome A * World.

Definition ret {A} (a : A) : M A := fun w => (Ok a, w).
Definition raise {A} (e : exn) : M A := fun w => (Raise e, w).
Definition diverge {A} : M A := fun w => (OutOfFuel, w).
Definition bind {A B} (m : M A) (k : A -> M B) : M B :=
  fun w => match m w with
           | (Ok a, w') => k a w'
           | (Raise e, w') => (Raise e, w')
           | (OutOfFuel, w') => (OutOfFuel, w')
           end.

Notation "'let!' x ':=' m 'in' k" := (bind m (fun x => k))
  (at level 10, x pattern, m at level 100, k at level 200).

(** [for x in l: acc = step(acc, x)] *)
Fixpoint for_each {A S} (l : list A) (step : S -> A -> M S) (acc : S) : M S :=
  match l with
  | [] => ret acc
  | x :: l' => let! acc' := step acc x in for_each l' step acc'
  end.

Definition get_loader : M LoaderClass := fun w => (Ok (loader_cls w), w).
Definition set_loader (c : LoaderClass) : M unit :=
  fun w => (Ok tt, mkWorld (fs w) c (next_id w) (events w) (user w)).
Definition fresh_id : M nat :=
  fun w => (Ok (next_id w), mkWorld (fs w) (loader_cls w) (S (next_id w)) (events w) (user w)).
Definition log (e : Event) : M unit :=
  fun w => (Ok tt, mkWorld (fs w) (loader_cls w) (next_id w) (events w ++ [e]) (user w)).
Definition on_user {A} (f : U -> outcome A * U) : M A :=
  fun w => let '(r, u) := f (user w) in
           (r, mkWorld (fs w) (loader_cls w) (next_id w) (events w) u).

(** [with Path(p).open() as f: f.read()], for a file that is there (its text
    is read) or is not there ([FileNotFoundError]).  The other ways a file can
    fail to open or to decode (permissions, a directory in its place, bytes
    that are not text) are not in this model of the disk; like the missing
    file they would leave [parse_manifest] unwrapped, the call standing
    before the [try] block. *)
Definition open_read (p : Path) : M string :=
  fun w => match fs w !! p with
           | Some content => (Ok content, w)
           | None => (Raise (FileNotFoundError p), w)
           end.

(** The two library functions the loader calls: [urllib.parse.urljoin] and
    [json.loads] (which returns the manifest or raises). *)
Variable urljoin : string -> string -> string.
Variable json_loads : string -> exn + Manifest.

(** The module-level [vite_config]. *)
Variable vite_config : ViteConfig.

Definition manifest_path : Path := path_div (static_dir vite_config) MANIFEST_NAME.

(** *** [ViteAssetLoader] *)

Definition parse_manifest : M Manifest :=
  let manifest : Manifest := ∅ in
  if negb (hot_reload vite_config) then
    let! manifest_content := open_read manifest_path in
    match json_loads manifest_content with
    | inr manifest => ret manifest
    | inl exc =>
        raise (RuntimeError "Cannot read Vite manifest file at %s"
                 [path_str manifest_path] (Some exc))
    end
  else ret manifest.

(** [ViteAssetLoader()], that is [__new__] *)
Definition ViteAssetLoader_new : M unit :=
  let! cls := get_loader in
  if negb (_instance cls) then
    let! manifest := parse_manifest in
    set_loader (mkLoaderClass true manifest)
  else ret tt.

Definition _script_tag (src : string) (attrs : option Attrs) : string :=
  let attrs_str :=
    match attrs with
    | Some attrs => join " " (map (fun kv => fst kv +:+ "=" +:+ dq +:+ snd kv +:+ dq) attrs)
    | None => EmptyString
    end in
  "<script " +:+ attrs_str +:+ " src=" +:+ dq +:+ src +:+ dq +:+ "></script>".

Definition _style_tag (href : string) : string :=
  "<link rel=" +:+ dq +:+ "stylesheet" +:+ dq +:+ " href=" +:+ dq +:+ href +:+ dq +:+ " />".

Definition _vite_server_url (path : option string) : string :=
  let base_path :=
    protocol vite_config +:+ "://" +:+ host vite_config +:+ ":"
    +:+ str_of_int (port vite_config) in
  urljoin base_path
    (urljoin (static_url vite_config)
       (match path with Some p => p | None => EmptyString end)).

Definition generate_vite_ws_client : string :=
  if negb (hot_reload vite_config) then EmptyString
  else _script_tag (_vite_server_url (Some "@vite/client")) (Some [("type", "module")]).

Definition indent16 : string := "                ".

Definition generate_vite_react_hmr : string :=
  if is_react vite_config && hot_reload vite_config then
    nl +:+ indent16 +:+ "<script type=" +:+ dq +:+ "module" +:+ dq +:+ ">" +:+ nl
    +:+ indent16 +:+ "import RefreshRuntime from '" +:+ _vite_server_url None
    +:+ "@react-refresh'" +:+ nl
    +:+ indent16 +:+ "RefreshRuntime.injectIntoGlobalHook(window)" +:+ nl
    +:+ indent16 +:+ "window.$RefreshReg$ = () => {}" +:+ nl
    +:+ indent16 +:+ "window.$RefreshSig$ = () => (type) => type" +:+ nl
    +:+ indent16 +:+ "window.__vite_plugin_react_preamble_installed__=true" +:+ nl
    +:+ indent16 +:+ "</script>" +:+ nl
    +:+ indent16
  else EmptyString.

Definition default_attrs : Attrs := [("type", "module"); ("async", EmptyString); ("defer", EmptyString)].

(** [not scripts_attrs]: [None] and the empty dict are both falsy. *)
Definition falsy_attrs (scripts_attrs : option Attrs) : bool :=
  match scripts_attrs with
  | None => true
  | Some [] => true
  | Some (_ :: _) => false
  end.

Definition not_found (path : string) : exn :=
  RuntimeError "Cannot find %s in Vite manifest at %s" [path; path_str manifest_path] None.

(** [generate_vite_asset]; [fuel] bounds the depth of the recursion. *)
Fixpoint generate_vite_asset (fuel : nat) (path : string)
    (scripts_attrs : option Attrs) : M string :=
  match fuel with
  | O => diverge
  | S fuel =>
      if hot_reload vite_config then
        ret (_script_tag (_vite_server_url (Some path)) (Some default_attrs))
      else
        let! cls := get_loader in
        match _manifest cls !! path with
        | None => raise (not_found path)
        | Some manifest_entry =>
            let tags : list string := [] in
            let scripts_attrs : Attrs :=
              if falsy_attrs scripts_attrs then default_attrs
              else match scripts_attrs with Some a => a | None => default_attrs end in
            let tags :=
              match css manifest_entry with
              | Some css_paths =>
                  fold_left
                    (fun tags css_path =>
                       tags ++ [_style_tag (urljoin (static_url vite_config) css_path)])
                    css_paths tags
              | None => tags
              end in
            let! tags :=
              match imports manifest_entry with
              | Some vendor_paths =>
                  for_each vendor_paths
                    (fun tags vendor_path =>
                       let! t := generate_vite_asset fuel vendor_path (Some scripts_attrs) in
                       ret (tags ++ [t]))
                    tags
              | None => ret tags
              end in
            match file manifest_entry with
            | None => raise (KeyError "file")
            | Some f =>
                let tags :=
                  tags ++ [_script_tag (urljoin (static_url vite_config) f)
                             (Some scripts_attrs)] in
                ret (join nl tags)
            end
        end
  end.

(** *** [ViteTemplateEngine] *)

(** [ViteTemplateEngine(directory)]: the Jinja engine is set up, the loader
    singleton is obtained and the two template globals are registered. *)
Definition ViteTemplateEngine_new (directory : Directory) : M ViteTemplateEngine :=
  let! id := fresh_id in
  let! _ := log (EvConstruct id directory) in
  let! _ := ViteAssetLoader_new in
  ret (mkEngine id directory).

Definition hmr_client (self : ViteTemplateEngine) : Markup :=
  let tags : list string := [] in
  let tags := tags ++ [generate_vite_react_hmr] in
  let tags := tags ++ [generate_vite_ws_client] in
  mkMarkup (join nl tags).

Definition resource (fuel : nat) (self : ViteTemplateEngine) (path : string)
    (scripts_attrs : option Attrs) : M Markup :=
  let! s := generate_vite_asset fuel path scripts_attrs in
  ret (mkMarkup s).

(** *** [ViteTemplateConfig] *)

(** The [engine] field: the class [ViteTemplateEngine] or an instance. *)
Inductive EngineArg := EngineClass | EngineInstance (e : ViteTemplateEngine).

Definition isclass (e : EngineArg) : bool :=
  match e with EngineClass => true | EngineInstance _ => false end.

(** The object; [engine_instance_cache] is the slot of the instance
    [__dict__] that [cached_property] fills. *)
Record ViteTemplateConfig := mkTemplateConfig
  { engine : EngineArg;
    config : ViteConfig;
    directory : Directory;
    engine_callback : option (ViteTemplateEngine -> U -> outcome unit * U);
    engine_instance_cache : option ViteTemplateEngine }.

(** Python truth value of [directory] *)
Definition truthy_directory (d : Directory) : bool :=
  match d with
  | DirNone => false
  | DirOne (PStr s) => Url.nonempty s
  | DirOne (PPath _) => true
  | DirList l => match l with [] => false | _ => true end
  end.

Definition __post_init__ (self : ViteTemplateConfig) : outcome unit :=
  if isclass (engine self) && negb (truthy_directory (directory self)) then
    Raise (ImproperlyConfiguredException
             "directory is a required kwarg when passing a template engine class")
  else Ok tt.

(** [ViteTemplateConfig(engine=..., config=..., directory=..., engine_callback=...)] *)
Definition ViteTemplateConfig_new (engine : EngineArg) (config : ViteConfig)
    (directory : Directory)
    (engine_callback : option (ViteTemplateEngine -> U -> outcome unit * U))
    : outcome ViteTemplateConfig :=
  let self := mkTemplateConfig engine config directory engine_callback None in
  match __post_init__ self with
  | Ok _ => Ok self
  | Raise e => Raise e
  | OutOfFuel => OutOfFuel
  end.

Definition to_engine (self : ViteTemplateConfig) : M ViteTemplateEngine :=
  let! template_engine :=
    match engine self with
    | EngineClass => ViteTemplateEngine_new (directory self)
    | EngineInstance e => ret e
    end in
  let! _ :=
    match engine_callback self with
    | Some callback =>
        let! _ := log (EvCallback (engine_id template_engine)) in
        on_user (callback template_engine)
    | None => ret tt
    end in
  ret template_engine.


End Vite.

Arguments World : clear implicits.
Arguments M : clear implicits.
Arguments ViteTemplateConfig : clear implicits.

(** ** Sample data *)

(** The defaults of [ViteConfig], with the two flags and the static URL
    left open. *)
Definition sample_config (hot react : bool) (static : string) : ViteConfig :=
  mkViteConfig hot react static ["static"] "localhost" "http" 3000
    ["npm"; "run"; "dev"] ["npm"; "run"; "build"].

Definition sample_manifest : Manifest :=
  {[ "main.js" := mkEntry (Some "assets/main.123.js") (Some ["assets/main.css"]) None ]}.

(** A world in which the loader singleton holds manifest [m]. *)
Definition loaded_world (m : Manifest) : World unit :=
  mkWorld ∅ (mkLoaderClass true m) 0 [] tt.

(** A world before the loader was ever used. *)
Definition fresh_world (files : gmap Path string) : World unit :=
  mkWorld files (mkLoaderClass false ∅) 0 [] tt.

(** [s] between double quotes *)
Definition quoted (s : string) : string := dq +:+ s +:+ dq.

(** A script tag with the default attributes, written out. *)
Definition module_script (src : string) : string :=
  "<script type=" +:+ quoted "module" +:+ " async=" +:+ quoted EmptyString
  +:+ " defer=" +:+ quoted EmptyString +:+ " src=" +:+ quoted src +:+ "></script>".

(** A diamond: [app.js] imports [a.js] and [b.js], which both import
    [shared.js]. *)
Definition diamond_manifest : Manifest :=
  <[ "app.js" := mkEntry (Some "assets/app.js") None (Some ["a.js"; "b.js"]) ]>
  (<[ "a.js" := mkEntry (Some "assets/a.js") None (Some ["shared.js"]) ]>
  (<[ "b.js" := mkEntry (Some "assets/b.js") None (Some ["shared.js"]) ]>
  {[ "shared.js" := mkEntry (Some "assets/shared.js") None None ]})).

(** An entry that imports itself. *)
Definition loop_manifest : Manifest :=
  {[ "loop.js" := mkEntry (Some "assets/loop.js") None (Some ["loop.js"]) ]}.

(** A template configuration given the engine class, a directory and a
    callback that leaves the user's state alone. *)
Definition sample_template_config : ViteTemplateConfig unit :=
  mkTemplateConfig EngineClass (sample_config true false "/static/")
    (DirOne (PStr "templates")) (Some (fun _ u => (Ok tt, u))) None.

(** ** Notions used to state the properties *)

Definition css_list (e : ManifestEntry) : list string :=
  match css e with Some l => l | None => [] end.

Definition imports_list (e : ManifestEntry) : list string :=
  match imports e with Some l => l | None => [] end.

(** The attributes the script tags carry: the overrides when they are given
    and not empty, the defaults otherwise. *)
Definition effective_attrs (scripts_attrs : option Attrs) : Attrs :=
  match scripts_attrs with
  | Some (kv :: a) => kv :: a
  | _ => default_attrs
  end.

(** The attributes under the reading "the overrides if provided, else the
    defaults". *)
Definition given_or_default (scripts_attrs : option Attrs) : Attrs :=
  match scripts_attrs with
  | Some a => a
  | None => default_attrs
  end.

(** The tag set of a manifest key as the specification words it: the
    stylesheet links of the entry, then the tag sets of its imports in list
    order, then the entry's own script tag, joined by newlines. *)
Inductive spec_asset_tags (urljoin : string -> string -> string) (cfg : ViteConfig)
    (m : Manifest) (attrs : Attrs) : string -> string -> Prop :=
| spec_entry path e f ts :
    m !! path = Some e ->
    spec_imports_tags urljoin cfg m attrs (imports_list e) ts ->
    file e = Some f ->
    spec_asset_tags urljoin cfg m attrs path
      (join nl (map (fun c => _style_tag (urljoin (static_url cfg) c)) (css_list e)
                ++ ts
                ++ [_script_tag (urljoin (static_url cfg) f) (Some attrs)]))
with spec_imports_tags (urljoin : string -> string -> string) (cfg : ViteConfig)
    (m : Manifest) (attrs : Attrs) : list string -> list string -> Prop :=
| spec_imports_nil : spec_imports_tags urljoin cfg m attrs [] []
| spec_imports_cons p ps t ts :
    spec_asset_tags urljoin cfg m attrs p t ->
    spec_imports_tags urljoin cfg m attrs ps ts ->
    spec_imports_tags urljoin cfg m attrs (p :: ps) (t :: ts).

Scheme spec_asset_tags_mut := Minimality for spec_asset_tags Sort Prop
  with spec_imports_tags_mut := Minimality for spec_imports_tags Sort Prop.

(** The imports graph of a manifest: [a] has an edge to [b] when the entry
    of [a] lists [b] among its imports. *)
Definition imports_edge (m : Manifest) (a b : string) : Prop :=
  exists e, m !! a = Some e /\ b ∈ imports_list e.

(** Some key reachable from [key] lies on a cycle. *)
Definition cycle_reachable (m : Manifest) (key : string) : Prop :=
  exists c, rtc (imports_edge m) key c /\ tc (imports_edge m) c c.

(** The invariants of the data model: every entry has its [file], and every
    import is a key of the manifest. *)
Definition well_formed (m : Manifest) : Prop :=
  forall k e, m !! k = Some e ->
    is_Some (file e) /\ forall i, i ∈ imports_list e -> is_Some (m !! i).

(** [traverse f l] runs [f] on the elements of [l] in order and stops at the
    first one that does not return. *)
Fixpoint traverse (f : string -> outcome string) (l : list string)
    : outcome (list string) :=
  match l with
  | [] => Ok []
  | x :: l' =>
      match f x with
      | Ok t =>
          match traverse f l' with
          | Ok ts => Ok (t :: ts)
          | Raise e => Raise e
          | OutOfFuel => OutOfFuel
          end
      | Raise e => Raise e
      | OutOfFuel => OutOfFuel
      end
  end.

(** The outcome of [generate_vite_asset] in manifest mode as a function of
    the manifest alone; [generate_vite_asset_expansion] below shows that the
    method computes it and leaves the state as it was. *)
Fixpoint expansion (urljoin : string -> string -> string) (cfg : ViteConfig)
    (m : Manifest) (fuel : nat) (path : string) (scripts_attrs : option Attrs)
    : outcome string :=
  match fuel with
  | O => OutOfFuel
  | S fuel =>
      match m !! path with
      | None => Raise (not_found cfg path)
      | Some e =>
          let attrs := effective_attrs scripts_attrs in
          match traverse (fun p => expansion urljoin cfg m fuel p (Some attrs))
                  (imports_list e) with
          | Ok ts =>
              match file e with
              | None => Raise (KeyError "file")
              | Some f =>
                  Ok (join nl
                        (map (fun c => _style_tag (urljoin (static_url cfg) c)) (css_list e)
                         ++ ts
                         ++ [_script_tag (urljoin (static_url cfg) f) (Some attrs)]))
              end
          | Raise x => Raise x
          | OutOfFuel => OutOfFuel
          end
      end
  end.

(** ** The dev-server runner ([run_vite], [_run_vite])

    The runner is one task that reads the child's standard output and logs
    it.  The child and the event loop are given from outside: what
    [open_process] does with the command, the text chunks the output stream
    delivers, and whether the run is cut short. *)

(** What can cut [anyio.run(_run_vite, ...)] short. *)
Inductive Interruption := KeyboardInterrupt | OtherException (e : exn).

(** A started child as the runner sees it: the chunks read from its
    standard output, in order, and how the reading ends ([None]: the stream
    closes). *)
Record ProcessRun := mkProcessRun
  { stdout_chunks : list string;
    stdout_end : option Interruption }.

(** A record written by [logger.info] or [logger.ainfo]: the event and the
    [message] keyword when given. *)
Inductive LogRecord := LogInfo (event : string) (message : option string).

(** The logging subsystem: whether [log.config.configure()] ran, and the
    records written so far. *)
Record Logging := mkLogging
  { configured : bool;
    records : list LogRecord }.

(** [text.replace("\n", "")] *)
Definition remove_newlines (text : string) : string :=
  Url.filter_chars (fun c => negb (Ascii.eqb c (ascii_of_nat 10))) text.

(** [_run_vite]: the result is [None] when the loop ran to the end of the
    stream. *)
Definition _run_vite {U : Type} (open_process : list string -> Interruption + ProcessRun)
    (template_config : ViteTemplateConfig U) (lg : Logging)
    : option Interruption * Logging :=
  match open_process (run_command (config template_config)) with
  | inl e => (Some e, lg)
  | inr vite_process =>
      (stdout_end vite_process,
       fold_left
         (fun lg text =>
            mkLogging (configured lg)
              (records lg ++ [LogInfo "Vite" (Some (remove_newlines text))]))
         (stdout_chunks vite_process) lg)
  end.

(** [run_vite]: configure logging, run the task, log the stop in the
    [finally] block, and let [contextlib.suppress] swallow a
    [KeyboardInterrupt]. *)
Definition run_vite {U : Type} (open_process : list string -> Interruption + ProcessRun)
    (template_config : ViteTemplateConfig U) (lg : Logging)
    : option Interruption * Logging :=
  let lg := mkLogging true (records lg) in
  let '(r, lg) := _run_vite open_process template_config lg in
  let lg := mkLogging (configured lg)
              (records lg ++ [LogInfo "Vite Service stopped." None]) in
  match r with
  | Some KeyboardInterrupt => (None, lg)
  | _ => (r, lg)
  end.



(** The state [w] with other files on disk. *)
Definition with_files {U : Type} (files : gmap Path string) (w : World U) : World U :=
  mkWorld files (loader_cls w) (next_id w) (events w) (user w).

(** A manifest file, and a [json.loads] that knows its text. *)
Definition sample_manifest_text : string := "{main.js: ...}".

Definition sample_json_loads (doc : string) : exn + Manifest :=
  if String.eqb doc sample_manifest_text then inr sample_manifest
  else inl (JSONDecodeError doc).

Definition sample_files : gmap Path string :=
  {[ ["static"; "manifest.json"] := sample_manifest_text ]}.

(** The events of one run of [to_engine] that builds engine [id]. *)
Definition engine_events {U : Type} (self : ViteTemplateConfig U) (id : nat) : list Event :=
  (if isclass (engine self) then [EvConstruct id (directory self)] else [])
  ++ (match engine_callback self with Some _ => [EvCallback id] | None => [] end).

(** The [src] of the dev-server tag as the specification words it: the
    dev-server base URL, which is [protocol://host:port] joined with the
    static URL, joined with the path.  (The code joins the static URL with
    the path first, see [_vite_server_url].) *)
Definition spec_dev_server_src (urljoin : string -> string -> string)
    (cfg : ViteConfig) (path : string) : string :=
  urljoin
    (urljoin (protocol cfg +:+ "://" +:+ host cfg +:+ ":" +:+ str_of_int (port cfg))
       (static_url cfg))
    path.

(** An entry that imports a key the manifest does not have, and then
    itself. *)
Definition dangling_loop_manifest : Manifest :=
  {[ "a.js" := mkEntry (Some "assets/a.js") None (Some ["missing.js"; "a.js"]) ]}.

(** ** Properties *)

(** The model of [urljoin] on the reference resolution examples of RFC 3986
    (base [http://a/b/c/d;p?q]) and on the joins the loader performs. *)
Example urljoin_reference_examples :
  Url.urljoin "http://a/b/c/d;p?q" "g" = "http://a/b/c/g"
  /\ Url.urljoin "http://a/b/c/d;p?q" "../g" = "http://a/b/g"
  /\ Url.urljoin "http://a/b/c/d;p?q" "g;x=1/../y" = "http://a/b/c/y"
  /\ Url.urljoin "http://a/b/c/d;p?q" "//g" = "http://g"
  /\ Url.urljoin "http://a/b/c/d;p?q" "?y" = "http://a/b/c/d;p?y"
  /\ Url.urljoin "http://a/b/c/d;p?q" "#s" = "http://a/b/c/d;p?q#s"
  /\ Url.urljoin "http://a/b/c/d;p?q" "." = "http://a/b/c/"
  /\ Url.urljoin "http://a/b/c/d;p?q" "../.." = "http://a/"
  /\ Url.urljoin "http://a/b/c/d;p?q" "/g" = "http://a/g"
  /\ Url.urljoin "/static/" "assets/main.css" = "/static/assets/main.css"
  /\ Url.urljoin "/static/" "@vite/client" = "/static/@vite/client"
  /\ Url.urljoin "/static/" EmptyString = "/static/"
  /\ Url.urljoin "http://localhost:3000" "/static/main.js"
     = "http://localhost:3000/static/main.js"
  /\ Url.urljoin "https://cdn.example.com/static/" "main.js"
     = "https://cdn.example.com/static/main.js".
Proof. repeat split. Qed.


Lemma react_hmr_nonempty urljoin cfg :
  is_react cfg = true -> hot_reload cfg = true ->
  generate_vite_react_hmr urljoin cfg <> EmptyString.
Proof.
  intros Hr Hh. unfold generate_vite_react_hmr. rewrite Hr, Hh. simpl.
  unfold nl. discriminate.
Qed.

Lemma ws_client_off urljoin cfg :
  hot_reload cfg = false -> generate_vite_ws_client urljoin cfg = EmptyString.
Proof. intros Hh. unfold generate_vite_ws_client. rewrite Hh. reflexivity. Qed.

Lemma react_hmr_off urljoin cfg :
  hot_reload cfg = false -> generate_vite_react_hmr urljoin cfg = EmptyString.
Proof.
  intros Hh. unfold generate_vite_react_hmr. rewrite Hh, andb_false_r. reflexivity.
Qed.

(** C7. Without hot reload both [generate_vite_ws_client] and
    [generate_vite_react_hmr] return the empty string, whatever [is_react]
    is; and [generate_vite_react_hmr] is non-empty exactly when both
    [hot_reload] and [is_react] are set. *)
Theorem hmr_tags_by_flags :
  (forall urljoin cfg,
     hot_reload cfg = false ->
     generate_vite_ws_client urljoin cfg = EmptyString
     /\ generate_vite_react_hmr urljoin cfg = EmptyString)
  /\ (forall urljoin cfg,
        generate_vite_react_hmr urljoin cfg <> EmptyString
        <-> hot_reload cfg = true /\ is_react cfg = true).
Proof.
  split.
  - intros urljoin cfg Hh. split; [apply ws_client_off | apply react_hmr_off]; exact Hh.
  - intros urljoin cfg. split.
    + intros Hne. unfold generate_vite_react_hmr in Hne.
      destruct (is_react cfg), (hot_reload cfg); simpl in Hne; try congruence.
      split; reflexivity.
    + intros [Hh Hr]. apply react_hmr_nonempty; assumption.
Qed.

Lemma hmr_tags_by_flags_witness :
  (generate_vite_ws_client Url.urljoin (sample_config false true "/static/") = EmptyString
   /\ generate_vite_react_hmr Url.urljoin (sample_config false true "/static/") = EmptyString)
  /\ generate_vite_react_hmr Url.urljoin (sample_config true true "/static/") <> EmptyString.
Proof.
  split.
  - apply (proj1 hmr_tags_by_flags Url.urljoin (sample_config false true "/static/")).
    reflexivity.
  - apply (proj2 hmr_tags_by_flags Url.urljoin (sample_config true true "/static/")).
    split; reflexivity.
Defined.

(** C10. [hmr_client] is the react-refresh tag, one newline, the dev-client
    tag; without hot reload that is the one-character string made of a
    newline, not the empty string. *)
Theorem hmr_client_joins_with_newline :
  (forall urljoin cfg self,
     markup_str (hmr_client urljoin cfg self)
     = generate_vite_react_hmr urljoin cfg +:+ nl +:+ generate_vite_ws_client urljoin cfg)
  /\ (forall urljoin cfg self,
        hot_reload cfg = false ->
        markup_str (hmr_client urljoin cfg self) = nl
        /\ String.length (markup_str (hmr_client urljoin cfg self)) = 1
        /\ markup_str (hmr_client urljoin cfg self) <> EmptyString).
Proof.
  split.
  - intros. reflexivity.
  - intros urljoin cfg self Hh.
    assert (E : markup_str (hmr_client urljoin cfg self) = nl).
    { unfold hmr_client. simpl.
      rewrite (react_hmr_off urljoin cfg Hh), (ws_client_off urljoin cfg Hh).
      reflexivity. }
    rewrite E. repeat split. unfold nl. discriminate.
Qed.

Lemma hmr_client_joins_with_newline_witness :
  markup_str (hmr_client Url.urljoin (sample_config false true "/static/")
                (mkEngine 0 DirNone)) = nl.
Proof.
  apply (proj2 hmr_client_joins_with_newline Url.urljoin
           (sample_config false true "/static/") (mkEngine 0 DirNone)).
  reflexivity.
Defined.

(** C8. A [ViteTemplateConfig] whose engine is the class and whose
    directory is missing cannot be constructed: [ImproperlyConfiguredException]
    is raised.  With an engine instance, or with the class and a directory
    that is not empty, construction returns the object.  It raises exactly
    when the engine is a class and the directory is falsy. *)
Theorem template_config_requires_directory :
  (forall U cfg cb,
     @ViteTemplateConfig_new U EngineClass cfg DirNone cb
     = Raise (ImproperlyConfiguredException
                "directory is a required kwarg when passing a template engine class"))
  /\ (forall U e cfg d cb,
        @ViteTemplateConfig_new U (EngineInstance e) cfg d cb
        = Ok (mkTemplateConfig (EngineInstance e) cfg d cb None))
  /\ (forall U cfg d cb,
        truthy_directory d = true ->
        @ViteTemplateConfig_new U EngineClass cfg d cb
        = Ok (mkTemplateConfig EngineClass cfg d cb None))
  /\ (forall U eng cfg d cb,
        (exists e, @ViteTemplateConfig_new U eng cfg d cb = Raise e)
        <-> isclass eng = true /\ truthy_directory d = false).
Proof.
  split; [| split; [| split]].
  - intros. reflexivity.
  - intros. reflexivity.
  - intros U cfg d cb Hd. unfold ViteTemplateConfig_new, __post_init__. simpl.
    rewrite Hd. reflexivity.
  - intros U eng cfg d cb. unfold ViteTemplateConfig_new, __post_init__. simpl. split.
    + intros [e He].
      destruct (isclass eng), (truthy_directory d); simpl in He; try discriminate.
      split; reflexivity.
    + intros [Hc Hd]. rewrite Hc, Hd. simpl. eexists. reflexivity.
Qed.

Lemma template_config_requires_directory_witness :
  @ViteTemplateConfig_new unit EngineClass (sample_config false false "/static/")
    (DirOne (PStr "templates")) None
  = Ok (mkTemplateConfig EngineClass (sample_config false false "/static/")
          (DirOne (PStr "templates")) None None).
Proof.
  apply (proj1 (proj2 (proj2 template_config_requires_directory))).
  reflexivity.
Defined.

(** C2. With [hot_reload] off, static URL [/static/] and the manifest
    [{"main.js": {"file": "assets/main.123.js", "css": ["assets/main.css"]}}],
    [generate_vite_asset("main.js")] without attribute overrides returns the
    stylesheet link, a newline and the module script tag, character for
    character. *)
Theorem main_js_example :
  forall U react dir h pr po rc bc fuel files inst nid evs (u : U),
    generate_vite_asset Url.urljoin
      (mkViteConfig false react "/static/" dir h pr po rc bc)
      (S fuel) "main.js" None
      (mkWorld files (mkLoaderClass inst sample_manifest) nid evs u)
    = (Ok ("<link rel=" +:+ quoted "stylesheet"
           +:+ " href=" +:+ quoted "/static/assets/main.css" +:+ " />"
           +:+ nl
           +:+ "<script type=" +:+ quoted "module"
           +:+ " async=" +:+ quoted EmptyString
           +:+ " defer=" +:+ quoted EmptyString
           +:+ " src=" +:+ quoted "/static/assets/main.123.js" +:+ "></script>"),
       mkWorld files (mkLoaderClass inst sample_manifest) nid evs u).
Proof. intros. reflexivity. Qed.

(** C4 (amended). With [hot_reload] on, [generate_vite_asset] answers for
    every path and every state of the loader, whether the manifest has the
    path or not, with one script tag: its [src] is [protocol://host:port]
    joined with the result of joining the static URL with the path
    ([urljoin(base, urljoin(static_url, path))]), and its attributes are
    [type="module" async="" defer=""].  The manifest is not read: the answer
    is the same in every state, and the state is left as it was.  For host
    [localhost], port [3000], static URL [/static/] and path [main.js] the
    [src] is [http://localhost:3000/static/main.js]. *)
Theorem hot_reload_asset_is_dev_server_tag :
  (forall U urljoin cfg fuel path attrs (w : World U),
     hot_reload cfg = true ->
     generate_vite_asset urljoin cfg (S fuel) path attrs w
     = (Ok (_script_tag
              (urljoin (protocol cfg +:+ "://" +:+ host cfg +:+ ":" +:+ str_of_int (port cfg))
                 (urljoin (static_url cfg) path))
              (Some [("type", "module"); ("async", EmptyString); ("defer", EmptyString)])),
        w))
  /\ (forall U urljoin cfg fuel path attrs (w w' : World U),
        hot_reload cfg = true ->
        fst (generate_vite_asset urljoin cfg (S fuel) path attrs w)
        = fst (generate_vite_asset urljoin cfg (S fuel) path attrs w'))
  /\ (forall U react dir rc bc fuel attrs (w : World U),
        generate_vite_asset Url.urljoin
          (mkViteConfig true react "/static/" dir "localhost" "http" 3000 rc bc)
          (S fuel) "main.js" attrs w
        = (Ok ("<script type=" +:+ quoted "module"
               +:+ " async=" +:+ quoted EmptyString
               +:+ " defer=" +:+ quoted EmptyString
               +:+ " src=" +:+ quoted "http://localhost:3000/static/main.js"
               +:+ "></script>"),
           w)).
Proof.
  split; [| split].
  - intros U urljoin cfg fuel path attrs w Hh. simpl. rewrite Hh. reflexivity.
  - intros U urljoin cfg fuel path attrs w w' Hh. simpl. rewrite Hh. reflexivity.
  - intros. reflexivity.
Qed.

Lemma hot_reload_asset_is_dev_server_tag_witness :
  fst (generate_vite_asset Url.urljoin (sample_config true false "/static/") 1
         "missing.js" None (loaded_world sample_manifest))
  = fst (generate_vite_asset Url.urljoin (sample_config true false "/static/") 1
           "missing.js" None (loaded_world ∅)).
Proof.
  apply (proj1 (proj2 hot_reload_asset_is_dev_server_tag)).
  reflexivity.
Defined.

(** C4 as it was worded, with the [src] being the dev-server base URL
    ([protocol://host:port] joined with the static URL) joined with the
    path, fails for a path that carries the scheme of the dev server: for
    [http:y.js] the code answers [http://localhost:3000/y.js], the wording
    gives [http://localhost:3000/static/y.js]. *)
Lemma dev_server_src_is_not_base_url_joined_with_path :
  generate_vite_asset Url.urljoin (sample_config true false "/static/") 1
    "http:y.js" None (loaded_world sample_manifest)
  = (Ok (module_script "http://localhost:3000/y.js"), loaded_world sample_manifest)
  /\ spec_dev_server_src Url.urljoin (sample_config true false "/static/") "http:y.js"
     = "http://localhost:3000/static/y.js"
  /\ fst (generate_vite_asset Url.urljoin (sample_config true false "/static/") 1
            "http:y.js" None (loaded_world sample_manifest))
     <> Ok (_script_tag
              (spec_dev_server_src Url.urljoin (sample_config true false "/static/")
                 "http:y.js")
              (Some [("type", "module"); ("async", EmptyString); ("defer", EmptyString)])).
Proof.
  split; [reflexivity | split; [reflexivity|]].
  vm_compute. discriminate.
Qed.

(** C5. With [hot_reload] off, a path that is not a key of the manifest
    makes [generate_vite_asset] raise the not-found [RuntimeError]: no tag
    is returned, and the state, the stored manifest included, is the one the
    call started from. *)
Theorem missing_asset_raises_not_found :
  forall U urljoin cfg fuel path attrs (w : World U),
    hot_reload cfg = false ->
    _manifest (loader_cls w) !! path = None ->
    generate_vite_asset urljoin cfg (S fuel) path attrs w
    = (Raise (RuntimeError "Cannot find %s in Vite manifest at %s"
                [path; path_str (path_div (static_dir cfg) MANIFEST_NAME)] None),
       w).
Proof.
  intros U urljoin cfg fuel path attrs w Hh Hm. simpl. rewrite Hh.
  unfold bind, get_loader. rewrite Hm. reflexivity.
Qed.

Lemma missing_asset_raises_not_found_witness :
  generate_vite_asset Url.urljoin (sample_config false false "/static/") 1
    "other.js" None (loaded_world sample_manifest)
  = (Raise (RuntimeError "Cannot find %s in Vite manifest at %s"
              ["other.js"; "static/manifest.json"] None),
     loaded_world sample_manifest).
Proof.
  apply (missing_asset_raises_not_found unit Url.urljoin
           (sample_config false false "/static/") 0 "other.js" None
           (loaded_world sample_manifest)).
  - reflexivity.
  - reflexivity.
Defined.

(** C3. What [parse_manifest] does.  With [hot_reload] on it returns the
    empty mapping and reads no file.  With [hot_reload] off and the manifest
    file present, text that [json.loads] rejects gives a [RuntimeError] whose
    cause is the parser's exception, and valid text gives the parsed mapping.
    With [hot_reload] off and the file missing, the [FileNotFoundError] of
    [open] leaves the function as it is: the [open] call stands before the
    [try] block, so no [RuntimeError] wraps it. *)
Theorem parse_manifest_behaviour :
  (forall U json_loads cfg (w : World U),
     hot_reload cfg = true ->
     parse_manifest json_loads cfg w = (Ok ∅, w))
  /\ (forall U json_loads cfg (w : World U) content exc,
        hot_reload cfg = false ->
        fs w !! path_div (static_dir cfg) MANIFEST_NAME = Some content ->
        json_loads content = inl exc ->
        parse_manifest json_loads cfg w
        = (Raise (RuntimeError "Cannot read Vite manifest file at %s"
                    [path_str (path_div (static_dir cfg) MANIFEST_NAME)] (Some exc)),
           w))
  /\ (forall U json_loads cfg (w : World U) content manifest,
        hot_reload cfg = false ->
        fs w !! path_div (static_dir cfg) MANIFEST_NAME = Some content ->
        json_loads content = inr manifest ->
        parse_manifest json_loads cfg w = (Ok manifest, w))
  /\ (forall U json_loads cfg (w : World U),
        hot_reload cfg = false ->
        fs w !! path_div (static_dir cfg) MANIFEST_NAME = None ->
        parse_manifest json_loads cfg w
        = (Raise (FileNotFoundError (path_div (static_dir cfg) MANIFEST_NAME)), w)
        /\ is_RuntimeError (FileNotFoundError (path_div (static_dir cfg) MANIFEST_NAME))
           = false).
Proof.
  split; [| split; [| split]].
  - intros U json_loads cfg w Hh. unfold parse_manifest. rewrite Hh. reflexivity.
  - intros U json_loads cfg w content exc Hh Hf Hj.
    unfold parse_manifest, bind, open_read, manifest_path. rewrite Hh. cbn.
    rewrite Hf, Hj. reflexivity.
  - intros U json_loads cfg w content manifest Hh Hf Hj.
    unfold parse_manifest, bind, open_read, manifest_path. rewrite Hh. cbn.
    rewrite Hf, Hj. reflexivity.
  - intros U json_loads cfg w Hh Hf. split; [| reflexivity].
    unfold parse_manifest, bind, open_read, manifest_path. rewrite Hh. cbn.
    rewrite Hf. reflexivity.
Qed.

Lemma parse_manifest_behaviour_witness :
  parse_manifest (fun doc => inl (JSONDecodeError doc))
    (sample_config false false "/static/") (fresh_world ∅)
  = (Raise (FileNotFoundError ["static"; "manifest.json"]), fresh_world ∅).
Proof.
  apply (proj2 (proj2 (proj2 parse_manifest_behaviour))).
  - reflexivity.
  - reflexivity.
Defined.

(** ** The recursive expansion of [generate_vite_asset] *)

Lemma effective_attrs_idem a : effective_attrs (Some (effective_attrs a)) = effective_attrs a.
Proof. destruct a as [[|kv a]|]; reflexivity. Qed.

Lemma effective_attrs_code a :
  (if falsy_attrs a then default_attrs
   else match a with Some a' => a' | None => default_attrs end) = effective_attrs a.
Proof. destruct a as [[|kv a]|]; reflexivity. Qed.

Lemma fold_left_snoc_map {A B} (g : A -> B) (l : list A) (acc : list B) :
  fold_left (fun tags x => tags ++ [g x]) l acc = acc ++ map g l.
Proof.
  revert acc. induction l as [|x l IH]; intros acc; simpl.
  - by rewrite app_nil_r.
  - rewrite IH. by rewrite <- app_assoc.
Qed.

Section Traverse.

Variables f g : string -> outcome string.

Lemma traverse_ok l ts :
  traverse f l = Ok ts <-> Forall2 (fun p t => f p = Ok t) l ts.
Proof.
  revert ts. induction l as [|x l IH]; intros ts; simpl.
  - split.
    + intros [= <-]. constructor.
    + intros H. inversion H. reflexivity.
  - split.
    + destruct (f x) as [t| |] eqn:Ef; try discriminate.
      destruct (traverse f l) as [ts'| |] eqn:Et; try discriminate.
      intros [= <-]. constructor; [exact Ef | by apply IH].
    + intros H. inversion H as [|? t ? ts' Hx Hl]; subst.
      rewrite Hx. apply IH in Hl. rewrite Hl. reflexivity.
Qed.

Lemma traverse_out_of_fuel l :
  traverse f l = OutOfFuel -> exists p, p ∈ l /\ f p = OutOfFuel.
Proof.
  induction l as [|x l IH]; simpl; [discriminate|].
  destruct (f x) as [t| |] eqn:Ef; try discriminate.
  - destruct (traverse f l) as [ts'| |] eqn:Et; try discriminate.
    intros _. destruct IH as (p & Hp & Hf); [reflexivity|].
    exists p. split; [by right | exact Hf].
  - intros _. exists x. split; [by left | exact Ef].
Qed.

Lemma traverse_raise l e :
  traverse f l = Raise e -> exists p, p ∈ l /\ f p = Raise e.
Proof.
  induction l as [|x l IH]; simpl; [discriminate|].
  destruct (f x) as [t| |] eqn:Ef; try discriminate.
  - destruct (traverse f l) as [ts'| |] eqn:Et; try discriminate.
    intros [= <-]. destruct IH as (p & Hp & Hf); [reflexivity|].
    exists p. split; [by right | exact Hf].
  - intros [= <-]. exists x. split; [by left | exact Ef].
Qed.

(** Where [f] returns or raises, [g] does the same: then a traversal by [f]
    that does not run out of fuel is a traversal by [g]. *)
Lemma traverse_mono l :
  (forall p, p ∈ l -> f p <> OutOfFuel -> g p = f p) ->
  traverse f l <> OutOfFuel -> traverse g l = traverse f l.
Proof.
  induction l as [|x l IH]; intros Hfg Hne; simpl in *; [reflexivity|].
  destruct (f x) as [t| |] eqn:Ef.
  - rewrite (Hfg x) by (by left || congruence). rewrite Ef.
    rewrite IH; [reflexivity | |].
    + intros p Hp. apply Hfg. by right.
    + destruct (traverse f l); congruence.
  - rewrite (Hfg x) by (by left || congruence). rewrite Ef. reflexivity.
  - congruence.
Qed.

End Traverse.

Section ManifestMode.

Context {U : Type}.
Variable urljoin : string -> string -> string.
Variable cfg : ViteConfig.
Hypothesis manifest_mode : hot_reload cfg = false.

(** The loop over [imports] in a state [w], given that each recursive call
    behaves as [h] says and gives the state back. *)
Lemma for_each_imports (h : string -> outcome string)
    (call : string -> M U string) (w : World U) :
  (forall p, call p w = (h p, w)) ->
  forall l acc,
    for_each l (fun tags vendor_path => bind (call vendor_path)
                                           (fun t => ret (tags ++ [t]))) acc w
    = (match traverse h l with
       | Ok ts => Ok (acc ++ ts)
       | Raise e => Raise e
       | OutOfFuel => OutOfFuel
       end, w).
Proof.
  intros Hcall. induction l as [|x l IH]; intros acc; simpl.
  - unfold ret. by rewrite app_nil_r.
  - unfold bind at 1. unfold bind at 1. rewrite Hcall.
    destruct (h x) as [t| |]; try reflexivity.
    unfold ret at 1. rewrite IH.
    destruct (traverse h l); try reflexivity.
    by rewrite <- app_assoc.
Qed.

(** In manifest mode the method computes [expansion] of the stored manifest
    and does not change the state. *)
Lemma generate_vite_asset_expansion fuel :
  forall path attrs (w : World U),
    generate_vite_asset urljoin cfg fuel path attrs w
    = (expansion urljoin cfg (_manifest (loader_cls w)) fuel path attrs, w).
Proof.
  induction fuel as [|fuel IH]; intros path attrs w; simpl; [reflexivity|].
  rewrite manifest_mode. unfold bind at 1. unfold get_loader at 1.
  destruct (_manifest (loader_cls w) !! path) as [e|]; [|reflexivity].
  rewrite effective_attrs_code.
  set (a := effective_attrs attrs).
  set (m := _manifest (loader_cls w)).
  set (styles := match css e with
                 | Some css_paths => fold_left _ css_paths []
                 | None => []
                 end).
  assert (Hs : styles = map (fun c => _style_tag (urljoin (static_url cfg) c)) (css_list e)).
  { subst styles. unfold css_list. destruct (css e); [|reflexivity].
    by rewrite fold_left_snoc_map. }
  rewrite Hs. clear Hs styles.
  unfold bind at 1.
  assert (Hl : (match imports e with
                | Some vendor_paths =>
                    for_each vendor_paths
                      (fun tags vendor_path =>
                         bind (generate_vite_asset urljoin cfg fuel vendor_path (Some a))
                           (fun t => ret (tags ++ [t])))
                      (map (fun c => _style_tag (urljoin (static_url cfg) c)) (css_list e))
                | None => ret (map (fun c => _style_tag (urljoin (static_url cfg) c)) (css_list e))
                end) w
               = (match traverse (fun p => expansion urljoin cfg m fuel p (Some a))
                          (imports_list e) with
                  | Ok ts => Ok (map (fun c => _style_tag (urljoin (static_url cfg) c)) (css_list e) ++ ts)
                  | Raise x => Raise x
                  | OutOfFuel => OutOfFuel
                  end, w)).
  { unfold imports_list. destruct (imports e) as [l|].
    - apply (for_each_imports (fun p => expansion urljoin cfg m fuel p (Some a))).
      intros p. apply IH.
    - simpl. unfold ret. by rewrite app_nil_r. }
  rewrite Hl.
  destruct (traverse _ (imports_list e)) as [ts| |]; try reflexivity.
  destruct (file e); [|reflexivity].
  unfold ret. by rewrite <- app_assoc.
Qed.

End ManifestMode.

Lemma traverse_ok_elem (f : string -> outcome string) l ts p :
  traverse f l = Ok ts -> p ∈ l -> exists t, f p = Ok t.
Proof.
  intros Ht Hp. apply traverse_ok in Ht.
  induction Ht as [|x t l ts Hx _ IH]; [by apply elem_of_nil in Hp|].
  apply elem_of_cons in Hp as [->|Hp]; [by exists t | by apply IH].
Qed.

Section Expansion.

Variable urljoin : string -> string -> string.
Variable cfg : ViteConfig.
Variable m : Manifest.

Local Abbreviation expand := (expansion urljoin cfg m).
Local Abbreviation edge := (imports_edge m).

Lemma expansion_S fuel path a :
  expand (S fuel) path a
  = match m !! path with
    | None => Raise (not_found cfg path)
    | Some e =>
        match traverse (fun p => expand fuel p (Some (effective_attrs a)))
                (imports_list e) with
        | Ok ts =>
            match file e with
            | None => Raise (KeyError "file")
            | Some f =>
                Ok (join nl
                      (map (fun c => _style_tag (urljoin (static_url cfg) c)) (css_list e)
                       ++ ts
                       ++ [_script_tag (urljoin (static_url cfg) f)
                             (Some (effective_attrs a))]))
            end
        | Raise x => Raise x
        | OutOfFuel => OutOfFuel
        end
    end.
Proof. reflexivity. Qed.

(** Only the effective attributes matter. *)
Lemma expansion_attrs fuel path a :
  expand fuel path a = expand fuel path (Some (effective_attrs a)).
Proof.
  destruct fuel; [reflexivity|].
  rewrite !expansion_S, effective_attrs_idem. reflexivity.
Qed.

(** More fuel does not change an outcome that needed no more. *)
Lemma expansion_mono fuel :
  forall path a, expand fuel path a <> OutOfFuel ->
                 expand (S fuel) path a = expand fuel path a.
Proof.
  induction fuel as [|fuel IH]; intros path a Hne; [by destruct Hne|].
  rewrite (expansion_S (S fuel)). rewrite expansion_S in Hne |- *.
  destruct (m !! path) as [e|]; [|reflexivity].
  rewrite (traverse_mono (fun p => expand fuel p (Some (effective_attrs a)))
             (fun p => expand (S fuel) p (Some (effective_attrs a)))).
  - reflexivity.
  - intros p _ Hp. by apply IH.
  - intros Ht. rewrite Ht in Hne. by apply Hne.
Qed.

Lemma expansion_mono_le fuel fuel' path a :
  fuel <= fuel' -> expand fuel path a <> OutOfFuel ->
  expand fuel' path a = expand fuel path a.
Proof.
  intros Hle. induction Hle as [|fuel' Hle IH]; intros Hne; [reflexivity|].
  rewrite expansion_mono; rewrite IH; done.
Qed.

(** *** The method computes the specified tag set *)

Lemma expansion_sound fuel :
  forall path a s, expand fuel path a = Ok s ->
                   spec_asset_tags urljoin cfg m (effective_attrs a) path s.
Proof.
  induction fuel as [|fuel IH]; intros path a s; [discriminate|].
  rewrite expansion_S.
  destruct (m !! path) as [e|] eqn:Em; [|discriminate].
  destruct (traverse _ (imports_list e)) as [ts| |] eqn:Et; try discriminate.
  destruct (file e) as [f|] eqn:Ef; [|discriminate].
  intros [= <-]. eapply spec_entry; [exact Em | | exact Ef].
  apply traverse_ok in Et. clear Em Ef.
  induction Et as [|p t l ts Hp _ IHl]; constructor; [|exact IHl].
  apply IH in Hp. by rewrite effective_attrs_idem in Hp.
Qed.

Lemma expansion_complete a0 path s :
  spec_asset_tags urljoin cfg m (effective_attrs a0) path s ->
  exists fuel, expand fuel path a0 = Ok s.
Proof.
  intros Hspec.
  cut (exists fuel, expand fuel path (Some (effective_attrs a0)) = Ok s).
  { intros [fuel Hf]. exists fuel. by rewrite expansion_attrs. }
  revert path s Hspec.
  apply (spec_asset_tags_mut urljoin cfg m (effective_attrs a0)
           (fun path s => exists fuel, expand fuel path (Some (effective_attrs a0)) = Ok s)
           (fun l ts => exists fuel,
                traverse (fun p => expand fuel p (Some (effective_attrs a0))) l = Ok ts)).
  - intros path e f ts Em _ [fuel Ht] Ef. exists (S fuel).
    rewrite expansion_S, Em, effective_attrs_idem, Ht, Ef. reflexivity.
  - exists 0. reflexivity.
  - intros p ps t ts _ [f1 H1] _ [f2 H2]. exists (f1 `max` f2). simpl.
    rewrite (expansion_mono_le f1) by (lia || congruence). rewrite H1.
    rewrite (traverse_mono (fun p => expand f2 p (Some (effective_attrs a0)))).
    + by rewrite H2.
    + intros q _ Hq. apply expansion_mono_le; [lia | exact Hq].
    + congruence.
Qed.

(** *** Termination on acyclic imports *)

Lemma cycle_reachable_step a b :
  edge a b -> cycle_reachable m b -> cycle_reachable m a.
Proof.
  intros Hab (c & Hbc & Hcc). exists c. split; [|exact Hcc].
  eapply rtc_l; eauto.
Qed.

(** [V] is a set of keys on the way to [key]; every level of recursion adds
    one key to it, and it cannot outgrow the manifest. *)
Lemma expansion_bounded fuel :
  forall (V : gset string) key a,
    (forall v, v ∈ V -> tc edge v key) ->
    V ⊆ dom m ->
    ~ cycle_reachable m key ->
    size (dom m ∖ V) < fuel ->
    expand fuel key a <> OutOfFuel.
Proof.
  induction fuel as [|fuel IH]; intros V key a Hanc Hdom Hacyc Hsize; [lia|].
  rewrite expansion_S.
  destruct (m !! key) as [e|] eqn:Em; [|discriminate].
  destruct (traverse _ (imports_list e)) as [ts| |] eqn:Et;
    [destruct (file e); discriminate | discriminate |].
  exfalso. apply traverse_out_of_fuel in Et as (b & Hb & Hoof).
  assert (Hedge : edge key b) by (exists e; done).
  assert (HkV : key ∉ V).
  { intros Hk. apply Hacyc. exists key. split; [apply rtc_refl | by apply Hanc]. }
  assert (Hkd : key ∈ dom m) by (apply elem_of_dom; eauto).
  revert Hoof. apply (IH (V ∪ {[key]})).
  - intros v [Hv | ->%elem_of_singleton]%elem_of_union.
    + eapply tc_r; [by apply Hanc | exact Hedge].
    + by apply tc_once.
  - intros v [Hv | ->%elem_of_singleton]%elem_of_union; [by apply Hdom | exact Hkd].
  - intros Hc. apply Hacyc. by eapply cycle_reachable_step.
  - assert (size (dom m ∖ (V ∪ {[key]})) < size (dom m ∖ V)); [|lia].
    apply subset_size. split.
    + intros x [Hx Hn]%elem_of_difference. apply elem_of_difference.
      split; [exact Hx|]. intros Hv. apply Hn, elem_of_union. by left.
    + intros Hsub. assert (Hk : key ∈ dom m ∖ V) by (by apply elem_of_difference).
      apply Hsub, elem_of_difference in Hk as [_ Hn].
      apply Hn, elem_of_union. right. by apply elem_of_singleton.
Qed.

Lemma expansion_terminates key a fuel :
  ~ cycle_reachable m key -> size m < fuel -> expand fuel key a <> OutOfFuel.
Proof.
  intros Hacyc Hfuel. apply (expansion_bounded fuel ∅).
  - set_solver.
  - set_solver.
  - exact Hacyc.
  - rewrite difference_empty_L, size_dom. exact Hfuel.
Qed.

(** *** Divergence on a cycle *)

Lemma ok_edge fuel a b attrs s :
  expand fuel a attrs = Ok s -> edge a b ->
  exists fuel' attrs' s', fuel' < fuel /\ expand fuel' b attrs' = Ok s'.
Proof.
  destruct fuel as [|fuel]; [discriminate|].
  rewrite expansion_S. intros Hok (e & Em & Hb). rewrite Em in Hok.
  destruct (traverse _ (imports_list e)) as [ts| |] eqn:Et; try discriminate.
  destruct (traverse_ok_elem _ _ _ _ Et Hb) as [t Ht].
  exists fuel, (Some (effective_attrs attrs)), t. split; [lia | exact Ht].
Qed.

Lemma ok_tc a b :
  tc edge a b ->
  forall fuel attrs s, expand fuel a attrs = Ok s ->
    exists fuel' attrs' s', fuel' < fuel /\ expand fuel' b attrs' = Ok s'.
Proof.
  intros Htc. induction Htc as [a b Hab | a x b Hax _ IH]; intros fuel attrs s Hok.
  - by eapply ok_edge.
  - destruct (ok_edge _ _ _ _ _ Hok Hax) as (f1 & a1 & s1 & Hlt & H1).
    destruct (IH _ _ _ H1) as (f2 & a2 & s2 & Hlt2 & H2).
    exists f2, a2, s2. split; [lia | exact H2].
Qed.

Lemma ok_rtc a b :
  rtc edge a b ->
  forall fuel attrs s, expand fuel a attrs = Ok s ->
    exists fuel' attrs' s', expand fuel' b attrs' = Ok s'.
Proof.
  intros Hrtc. induction Hrtc as [a | a x b Hax _ IH]; intros fuel attrs s Hok; [by eauto|].
  destruct (ok_edge _ _ _ _ _ Hok Hax) as (f1 & a1 & s1 & _ & H1). by eapply IH.
Qed.

Lemma on_cycle_never_ok c :
  tc edge c c -> forall fuel attrs s, expand fuel c attrs <> Ok s.
Proof.
  intros Hc fuel. induction (lt_wf fuel) as [fuel _ IH]. intros attrs s Hok.
  destruct (ok_tc _ _ Hc _ _ _ Hok) as (f' & a' & s' & Hlt & Hok').
  exact (IH f' Hlt a' s' Hok').
Qed.

Lemma cycle_reachable_never_ok key fuel attrs s :
  cycle_reachable m key -> expand fuel key attrs <> Ok s.
Proof.
  intros (c & Hkc & Hcc) Hok.
  destruct (ok_rtc _ _ Hkc _ _ _ Hok) as (f' & a' & s' & Hok').
  exact (on_cycle_never_ok c Hcc f' a' s' Hok').
Qed.

Lemma tc_source_in_manifest a b : tc edge a b -> is_Some (m !! a).
Proof. intros [? ? (e & Em & _) | ? ? ? (e & Em & _) _]; by exists e. Qed.

Lemma cycle_reachable_in_manifest key :
  cycle_reachable m key -> is_Some (m !! key).
Proof.
  intros (c & Hkc & Hcc). destruct Hkc as [|key x c (e & Em & _) _].
  - by eapply tc_source_in_manifest.
  - by exists e.
Qed.

Lemma well_formed_never_raises fuel :
  well_formed m ->
  forall key attrs x, is_Some (m !! key) -> expand fuel key attrs <> Raise x.
Proof.
  intros Hwf. induction fuel as [|fuel IH]; intros key attrs x [e Em]; [discriminate|].
  rewrite expansion_S, Em. destruct (Hwf key e Em) as [[f Hf] Himp].
  destruct (traverse _ (imports_list e)) as [ts| |] eqn:Et.
  - rewrite Hf. discriminate.
  - intros [= <-]. apply traverse_raise in Et as (b & Hb & Hr).
    revert Hr. apply IH. by apply Himp.
  - discriminate.
Qed.

Lemma expansion_diverges key fuel attrs :
  well_formed m -> cycle_reachable m key -> expand fuel key attrs = OutOfFuel.
Proof.
  intros Hwf Hc. destruct (expand fuel key attrs) as [s|x|] eqn:E; [| |reflexivity].
  - exfalso. by eapply cycle_reachable_never_ok.
  - exfalso. eapply well_formed_never_raises; [exact Hwf | | exact E].
    by apply cycle_reachable_in_manifest.
Qed.

End Expansion.

(** ** Properties of the recursive expansion *)

(** C1 (amended). In manifest mode, for a path that is a key of the
    manifest, the string [generate_vite_asset] returns is the newline-join
    of: one stylesheet link per entry of [css], each resolved against the
    static URL; then the strings the same method returns for the entries of
    [imports], in list order and with the same attributes; then one script
    tag for [file].  The attributes are the overrides when they are given
    and not empty, the defaults [type="module" async="" defer=""] otherwise.
    Nothing is deduplicated: in a diamond the shared import appears twice. *)
Theorem asset_tags_in_order :
  (forall U urljoin cfg path attrs s (w : World U),
     hot_reload cfg = false ->
     (exists fuel, generate_vite_asset urljoin cfg fuel path attrs w = (Ok s, w))
     <-> spec_asset_tags urljoin cfg (_manifest (loader_cls w))
           (effective_attrs attrs) path s)
  /\ (forall fuel,
        generate_vite_asset Url.urljoin (sample_config false false "/static/")
          (S (S (S fuel))) "app.js" None (loaded_world diamond_manifest)
        = (Ok (join nl [module_script "/static/assets/shared.js";
                        module_script "/static/assets/a.js";
                        module_script "/static/assets/shared.js";
                        module_script "/static/assets/b.js";
                        module_script "/static/assets/app.js"]),
           loaded_world diamond_manifest)).
Proof.
  split.
  - intros U urljoin cfg path attrs s w Hh. split.
    + intros [fuel Hg]. rewrite generate_vite_asset_expansion in Hg by exact Hh.
      injection Hg as Hg. by eapply expansion_sound.
    + intros Hs. apply expansion_complete in Hs as [fuel Hf]. exists fuel.
      rewrite generate_vite_asset_expansion by exact Hh. by rewrite Hf.
  - intros fuel. reflexivity.
Qed.

Lemma asset_tags_in_order_witness :
  spec_asset_tags Url.urljoin (sample_config false false "/static/") sample_manifest
    default_attrs "main.js"
    (_style_tag "/static/assets/main.css" +:+ nl
     +:+ module_script "/static/assets/main.123.js").
Proof.
  apply (proj1 (proj1 asset_tags_in_order unit Url.urljoin
                  (sample_config false false "/static/") "main.js" None _
                  (loaded_world sample_manifest) eq_refl)).
  exists 1. reflexivity.
Defined.

(** C1 as it was worded ("the overrides if provided") fails for the empty
    dict: it is provided, the wording asks for a script tag without
    attributes, and the call returns the tag with the defaults. *)
Lemma empty_overrides_get_default_attrs :
  generate_vite_asset Url.urljoin (sample_config false false "/static/") 1
    "main.js" (Some []) (loaded_world sample_manifest)
  = (Ok (_style_tag "/static/assets/main.css" +:+ nl
         +:+ module_script "/static/assets/main.123.js"),
     loaded_world sample_manifest)
  /\ spec_asset_tags Url.urljoin (sample_config false false "/static/")
       sample_manifest (given_or_default (Some [])) "main.js"
       (_style_tag "/static/assets/main.css" +:+ nl
        +:+ "<script  src=" +:+ quoted "/static/assets/main.123.js" +:+ "></script>")
  /\ ~ spec_asset_tags Url.urljoin (sample_config false false "/static/")
         sample_manifest (given_or_default (Some [])) "main.js"
         (_style_tag "/static/assets/main.css" +:+ nl
          +:+ module_script "/static/assets/main.123.js").
Proof.
  split; [reflexivity | split].
  - apply (spec_entry Url.urljoin (sample_config false false "/static/")
             sample_manifest [] "main.js"
             (mkEntry (Some "assets/main.123.js") (Some ["assets/main.css"]) None)
             "assets/main.123.js" []).
    + reflexivity.
    + constructor.
    + reflexivity.
  - intros H. inversion H as [path e f ts Em Hts Ef Hp Hs]; subst.
    unfold sample_manifest in Em. apply lookup_singleton_Some in Em as [_ <-].
    inversion Hts; subst. injection Ef as <-.
    vm_compute in Hs. discriminate.
Qed.

Lemma sample_manifest_acyclic : ~ cycle_reachable sample_manifest "main.js".
Proof.
  intros (c & _ & Hcc).
  destruct Hcc as [? ? (e & Em & Hi) | ? ? ? (e & Em & Hi) _];
    unfold sample_manifest in Em;
    apply lookup_singleton_Some in Em as [_ <-]; by apply elem_of_nil in Hi.
Qed.

Lemma loop_manifest_well_formed : well_formed loop_manifest.
Proof.
  unfold loop_manifest. intros k e [<- <-]%lookup_singleton_Some. split; [by eexists|].
  intros i ->%list_elem_of_singleton. by eexists.
Qed.

Lemma loop_manifest_cycle : cycle_reachable loop_manifest "loop.js".
Proof.
  exists "loop.js". split; [apply rtc_refl|]. apply tc_once.
  eexists. split; [reflexivity|]. by left.
Qed.

(** C6 (amended). In manifest mode: when no key reachable from the queried
    key lies on a cycle of the imports graph, the recursion ends, with a
    string or an exception, at a depth of at most the number of keys, and
    more depth changes nothing.  When a cycle is reachable, no depth ever
    yields tags; and when in addition the manifest keeps the invariants of
    the data model (every entry has its file, every import is a key) every
    depth is exhausted: the recursion goes on without end. *)
Theorem expansion_terminates_unless_cyclic :
  (forall U urljoin cfg key attrs (w : World U),
     hot_reload cfg = false ->
     ~ cycle_reachable (_manifest (loader_cls w)) key ->
     exists r, r <> OutOfFuel
               /\ forall fuel, size (_manifest (loader_cls w)) < fuel ->
                    generate_vite_asset urljoin cfg fuel key attrs w = (r, w))
  /\ (forall U urljoin cfg key attrs (w : World U),
        hot_reload cfg = false ->
        cycle_reachable (_manifest (loader_cls w)) key ->
        forall fuel s w', generate_vite_asset urljoin cfg fuel key attrs w <> (Ok s, w'))
  /\ (forall U urljoin cfg key attrs (w : World U),
        hot_reload cfg = false ->
        well_formed (_manifest (loader_cls w)) ->
        cycle_reachable (_manifest (loader_cls w)) key ->
        forall fuel, generate_vite_asset urljoin cfg fuel key attrs w = (OutOfFuel, w)).
Proof.
  split; [| split].
  - intros U urljoin cfg key attrs w Hh Hacyc.
    set (m := _manifest (loader_cls w)) in *.
    assert (Hne : expansion urljoin cfg m (S (size m)) key attrs <> OutOfFuel)
      by (apply expansion_terminates; [exact Hacyc | lia]).
    exists (expansion urljoin cfg m (S (size m)) key attrs). split; [exact Hne|].
    intros fuel Hfuel. rewrite generate_vite_asset_expansion by exact Hh.
    fold m. f_equal. apply expansion_mono_le; [lia | exact Hne].
  - intros U urljoin cfg key attrs w Hh Hc fuel s w'.
    rewrite generate_vite_asset_expansion by exact Hh. intros [= Hok _].
    revert Hok. by apply cycle_reachable_never_ok.
  - intros U urljoin cfg key attrs w Hh Hwf Hc fuel.
    rewrite generate_vite_asset_expansion by exact Hh.
    by rewrite expansion_diverges.
Qed.

Lemma expansion_terminates_unless_cyclic_witness :
  (exists r, r <> OutOfFuel
             /\ forall fuel, size sample_manifest < fuel ->
                  generate_vite_asset Url.urljoin (sample_config false false "/static/")
                    fuel "main.js" None (loaded_world sample_manifest)
                  = (r, loaded_world sample_manifest))
  /\ (forall fuel,
        generate_vite_asset Url.urljoin (sample_config false false "/static/")
          fuel "loop.js" None (loaded_world loop_manifest)
        = (OutOfFuel, loaded_world loop_manifest)).
Proof.
  split.
  - apply (proj1 expansion_terminates_unless_cyclic unit Url.urljoin
             (sample_config false false "/static/") "main.js" None
             (loaded_world sample_manifest)).
    + reflexivity.
    + exact sample_manifest_acyclic.
  - apply (proj2 (proj2 expansion_terminates_unless_cyclic) unit Url.urljoin
             (sample_config false false "/static/") "loop.js" None
             (loaded_world loop_manifest)).
    + reflexivity.
    + exact loop_manifest_well_formed.
    + exact loop_manifest_cycle.
Defined.

(** C6 as it was worded, with every reachable cycle making the recursion
    go on without end, fails when an import listed before the cycle is not a
    key of the manifest: the entry [a.js] imports itself, so a cycle is
    reachable from it, yet at every depth from two on the call ends with the
    not-found error for [missing.js]. *)
Lemma dangling_import_ends_the_recursion :
  cycle_reachable dangling_loop_manifest "a.js"
  /\ generate_vite_asset Url.urljoin (sample_config false false "/static/") 2
       "a.js" None (loaded_world dangling_loop_manifest)
     = (Raise (RuntimeError "Cannot find %s in Vite manifest at %s"
                 ["missing.js"; "static/manifest.json"] None),
        loaded_world dangling_loop_manifest)
  /\ (forall fuel,
        generate_vite_asset Url.urljoin (sample_config false false "/static/")
          (S (S fuel)) "a.js" None (loaded_world dangling_loop_manifest)
        <> (OutOfFuel, loaded_world dangling_loop_manifest)).
Proof.
  split; [| split].
  - exists "a.js". split; [apply rtc_refl|]. apply tc_once.
    eexists. split; [reflexivity|]. right. by left.
  - reflexivity.
  - intros fuel. discriminate.
Qed.

(** ** The deferred engine of [ViteTemplateConfig] *)

(** Obtaining the loader singleton touches nothing but the loader's class
    attributes. *)
Lemma ViteAssetLoader_new_frame {U} json_loads cfg (w w' : World U) r :
  ViteAssetLoader_new json_loads cfg w = (r, w') ->
  fs w' = fs w /\ next_id w' = next_id w /\ events w' = events w /\ user w' = user w.
Proof.
  unfold ViteAssetLoader_new, bind, get_loader, set_loader, ret.
  destruct (_instance (loader_cls w)); simpl.
  - intros [= _ <-]. done.
  - unfold parse_manifest, bind, open_read, ret, raise.
    destruct (hot_reload cfg); simpl.
    + intros [= _ <-]. done.
    + destruct (fs w !! manifest_path cfg) as [content|]; simpl.
      * destruct (json_loads content); intros [= _ <-]; done.
      * intros [= _ <-]. done.
Qed.



(** ** The loader singleton *)

Lemma parse_manifest_state {U} json_loads cfg (w w' : World U) r :
  parse_manifest json_loads cfg w = (r, w') -> w' = w.
Proof.
  unfold parse_manifest, bind, open_read, ret, raise.
  destruct (hot_reload cfg); simpl.
  - by intros [= _ <-].
  - destruct (fs w !! manifest_path cfg) as [content|].
    + destruct (json_loads content); by intros [= _ <-].
    + by intros [= _ <-].
Qed.

(** Once [ViteAssetLoader()] has returned, the singleton exists, and every
    later call returns at once: nothing is parsed again and nothing changes,
    whatever has become of the files on disk in the meantime. *)
Theorem loader_created_once :
  forall U json_loads cfg (w w1 : World U),
    ViteAssetLoader_new json_loads cfg w = (Ok tt, w1) ->
    _instance (loader_cls w1) = true
    /\ forall w2 : World U,
         loader_cls w2 = loader_cls w1 ->
         ViteAssetLoader_new json_loads cfg w2 = (Ok tt, w2).
Proof.
  intros U json_loads cfg w w1 Hnew.
  assert (Hinst : _instance (loader_cls w1) = true).
  { unfold ViteAssetLoader_new, bind, get_loader in Hnew.
    destruct (_instance (loader_cls w)) eqn:Hi; simpl in Hnew.
    - injection Hnew as <-. exact Hi.
    - destruct (parse_manifest json_loads cfg w) as [[m| |] w'] eqn:Hp;
        try discriminate.
      unfold set_loader in Hnew. by injection Hnew as <-. }
  split; [exact Hinst|].
  intros w2 Hcls. unfold ViteAssetLoader_new, bind, get_loader.
  rewrite Hcls, Hinst. reflexivity.
Qed.

Lemma loader_created_once_witness :
  _instance (loader_cls (mkWorld sample_files (mkLoaderClass true sample_manifest) 0 [] tt))
  = true
  /\ forall w2 : World unit,
       loader_cls w2
       = loader_cls (mkWorld sample_files (mkLoaderClass true sample_manifest) 0 [] tt) ->
       ViteAssetLoader_new sample_json_loads (sample_config false false "/static/") w2
       = (Ok tt, w2).
Proof.
  apply (loader_created_once unit sample_json_loads
           (sample_config false false "/static/") (fresh_world sample_files)).
  reflexivity.
Defined.

(** A call of [ViteAssetLoader()] that raises leaves the state as it was:
    the class attributes are not assigned, the singleton is still missing,
    and so the next call parses again.  This happens in manifest mode only:
    with [hot_reload] on the call does not raise. *)
Theorem loader_failure_changes_nothing :
  forall U json_loads cfg (w w1 : World U) e,
    ViteAssetLoader_new json_loads cfg w = (Raise e, w1) ->
    w1 = w
    /\ _instance (loader_cls w) = false
    /\ hot_reload cfg = false.
Proof.
  intros U json_loads cfg w w1 e Hnew.
  unfold ViteAssetLoader_new, bind, get_loader in Hnew.
  destruct (_instance (loader_cls w)) eqn:Hi; simpl in Hnew; [discriminate|].
  destruct (parse_manifest json_loads cfg w) as [[m| |] w'] eqn:Hp;
    try discriminate.
  injection Hnew as <- <-.
  pose proof (parse_manifest_state _ _ _ _ _ Hp) as ->.
  split; [reflexivity | split; [reflexivity|]].
  unfold parse_manifest in Hp.
  destruct (hot_reload cfg); [discriminate | reflexivity].
Qed.

Lemma loader_failure_changes_nothing_witness :
  fresh_world ∅ = fresh_world ∅
  /\ _instance (loader_cls (fresh_world ∅)) = false
  /\ hot_reload (sample_config false false "/static/") = false.
Proof.
  apply (loader_failure_changes_nothing unit sample_json_loads
           (sample_config false false "/static/") (fresh_world ∅) (fresh_world ∅)
           (FileNotFoundError ["static"; "manifest.json"])).
  reflexivity.
Defined.

(** The first call of [ViteAssetLoader()] creates the singleton.  With
    [hot_reload] on it stores the empty manifest and needs no file; with
    [hot_reload] off and a manifest file that [json.loads] accepts it stores
    the parsed mapping.  Nothing else in the state changes. *)
Theorem loader_first_call_stores_manifest :
  (forall U json_loads cfg (w : World U),
     _instance (loader_cls w) = false ->
     hot_reload cfg = true ->
     ViteAssetLoader_new json_loads cfg w
     = (Ok tt, mkWorld (fs w) (mkLoaderClass true ∅) (next_id w) (events w) (user w)))
  /\ (forall U json_loads cfg (w : World U) content m,
        _instance (loader_cls w) = false ->
        hot_reload cfg = false ->
        fs w !! path_div (static_dir cfg) MANIFEST_NAME = Some content ->
        json_loads content = inr m ->
        ViteAssetLoader_new json_loads cfg w
        = (Ok tt, mkWorld (fs w) (mkLoaderClass true m) (next_id w) (events w) (user w))).
Proof.
  split.
  - intros U json_loads cfg w Hi Hh.
    unfold ViteAssetLoader_new, bind, get_loader, parse_manifest. rewrite Hi, Hh.
    reflexivity.
  - intros U json_loads cfg w content m Hi Hh Hf Hj.
    unfold ViteAssetLoader_new, bind, get_loader, parse_manifest, bind, open_read,
      manifest_path.
    rewrite Hi, Hh. cbn. rewrite Hf, Hj. reflexivity.
Qed.

Lemma loader_first_call_stores_manifest_witness :
  ViteAssetLoader_new sample_json_loads (sample_config false false "/static/")
    (fresh_world sample_files)
  = (Ok tt, mkWorld sample_files (mkLoaderClass true sample_manifest) 0 [] tt).
Proof.
  apply (proj2 loader_first_call_stores_manifest unit sample_json_loads
           (sample_config false false "/static/") (fresh_world sample_files)
           sample_manifest_text sample_manifest).
  - reflexivity.
  - reflexivity.
  - reflexivity.
  - reflexivity.
Defined.

(** ** Further properties of [generate_vite_asset] *)

Lemma traverse_all_ok (f : string -> outcome string) l :
  (forall q, q ∈ l -> exists t, f q = Ok t) -> exists ts, traverse f l = Ok ts.
Proof.
  induction l as [|x l IH]; intros Hall; simpl; [by eexists|].
  destruct (Hall x) as [t Ht]; [by left|]. rewrite Ht.
  destruct IH as [ts Hts]; [intros q Hq; apply Hall; by right|].
  rewrite Hts. by eexists.
Qed.

Lemma traverse_stops_at_raise (f : string -> outcome string) before p after e :
  (forall q, q ∈ before -> exists t, f q = Ok t) ->
  f p = Raise e ->
  traverse f (before ++ p :: after) = Raise e.
Proof.
  induction before as [|x l IH]; intros Hall Hp; simpl.
  - by rewrite Hp.
  - destruct (Hall x) as [t Ht]; [by left|]. rewrite Ht.
    rewrite IH; [reflexivity | | exact Hp].
    intros q Hq. apply Hall. by right.
Qed.

Lemma traverse_ext (f g : string -> outcome string) l :
  (forall q, q ∈ l -> f q = g q) -> traverse f l = traverse g l.
Proof.
  induction l as [|x l IH]; intros Hfg; simpl; [reflexivity|].
  rewrite <- (Hfg x) by (by left).
  rewrite IH; [reflexivity|]. intros q Hq. apply Hfg. by right.
Qed.

(** [generate_vite_asset] only reads: in either mode and whatever the
    outcome (a string, an exception, recursion too deep), the state after
    the call is the state before it. *)
Theorem generate_vite_asset_only_reads :
  forall U urljoin cfg fuel path attrs (w : World U),
    snd (generate_vite_asset urljoin cfg fuel path attrs w) = w.
Proof.
  intros U urljoin cfg fuel path attrs w.
  destruct (hot_reload cfg) eqn:Hh.
  - destruct fuel; simpl; [reflexivity|]. rewrite Hh. reflexivity.
  - rewrite generate_vite_asset_expansion by exact Hh. reflexivity.
Qed.

(** Passing the empty dict, or the default attributes themselves, as
    overrides is the same as passing none: in either mode the call behaves
    exactly as with [scripts_attrs=None]. *)
Theorem empty_or_default_overrides_are_no_overrides :
  forall U urljoin cfg fuel path (w : World U),
    generate_vite_asset urljoin cfg fuel path (Some []) w
    = generate_vite_asset urljoin cfg fuel path None w
    /\ generate_vite_asset urljoin cfg fuel path
         (Some [("type", "module"); ("async", EmptyString); ("defer", EmptyString)]) w
       = generate_vite_asset urljoin cfg fuel path None w.
Proof.
  intros U urljoin cfg fuel path w.
  destruct (hot_reload cfg) eqn:Hh.
  - destruct fuel; simpl; [done|]. rewrite Hh. done.
  - rewrite !generate_vite_asset_expansion by exact Hh.
    rewrite (expansion_attrs _ _ _ fuel path (Some [])).
    rewrite (expansion_attrs _ _ _ fuel path (Some [("type", "module"); _; _])).
    rewrite (expansion_attrs _ _ _ fuel path None). done.
Qed.

(** In manifest mode an entry without imports needs no recursion: the call
    returns the stylesheet links of its [css] list followed by its script
    tag; an entry with neither [css] nor [imports] gives the script tag
    alone. *)
Theorem leaf_entry_tags :
  forall U urljoin cfg fuel path attrs (w : World U) e f,
    hot_reload cfg = false ->
    _manifest (loader_cls w) !! path = Some e ->
    imports_list e = [] ->
    file e = Some f ->
    generate_vite_asset urljoin cfg (S fuel) path attrs w
    = (Ok (join nl (map (fun c => _style_tag (urljoin (static_url cfg) c)) (css_list e)
                    ++ [_script_tag (urljoin (static_url cfg) f)
                          (Some (effective_attrs attrs))])),
       w)
    /\ (css_list e = [] ->
        generate_vite_asset urljoin cfg (S fuel) path attrs w
        = (Ok (_script_tag (urljoin (static_url cfg) f) (Some (effective_attrs attrs))),
           w)).
Proof.
  intros U urljoin cfg fuel path attrs w e f Hh Hm Hi Hf.
  rewrite generate_vite_asset_expansion by exact Hh.
  rewrite expansion_S, Hm, Hi, Hf. simpl. split; [reflexivity|].
  intros ->. reflexivity.
Qed.

Lemma leaf_entry_tags_witness :
  generate_vite_asset Url.urljoin (sample_config false false "/static/") 1
    "main.js" None (loaded_world sample_manifest)
  = (Ok (join nl (map (fun c => _style_tag (Url.urljoin "/static/" c)) ["assets/main.css"]
                  ++ [_script_tag (Url.urljoin "/static/" "assets/main.123.js")
                        (Some default_attrs)])),
     loaded_world sample_manifest).
Proof.
  apply (leaf_entry_tags unit Url.urljoin (sample_config false false "/static/") 0
           "main.js" None (loaded_world sample_manifest)
           (mkEntry (Some "assets/main.123.js") (Some ["assets/main.css"]) None)
           "assets/main.123.js").
  - reflexivity.
  - reflexivity.
  - reflexivity.
  - reflexivity.
Defined.

(** In manifest mode, when an import of the queried entry is not a key of
    the manifest and the imports listed before it expand, the call raises
    the not-found error for that import (the error names the import, not the
    queried path) and returns no tags. *)
Theorem missing_import_is_reported :
  forall U urljoin cfg fuel path attrs (w : World U) e before p after,
    hot_reload cfg = false ->
    _manifest (loader_cls w) !! path = Some e ->
    imports e = Some (before ++ p :: after) ->
    _manifest (loader_cls w) !! p = None ->
    (forall q, q ∈ before ->
       exists t, generate_vite_asset urljoin cfg (S fuel) q
                   (Some (effective_attrs attrs)) w = (Ok t, w)) ->
    generate_vite_asset urljoin cfg (S (S fuel)) path attrs w
    = (Raise (RuntimeError "Cannot find %s in Vite manifest at %s"
                [p; path_str (path_div (static_dir cfg) MANIFEST_NAME)] None),
       w).
Proof.
  intros U urljoin cfg fuel path attrs w e before p after Hh Hm Hi Hp Hbefore.
  rewrite generate_vite_asset_expansion by exact Hh.
  rewrite expansion_S, Hm. unfold imports_list. rewrite Hi.
  rewrite (traverse_stops_at_raise _ before p after (not_found cfg p)).
  - reflexivity.
  - intros q Hq. destruct (Hbefore q Hq) as [t Ht]. exists t.
    rewrite generate_vite_asset_expansion in Ht by exact Hh. by injection Ht.
  - rewrite expansion_S, Hp. reflexivity.
Qed.

Lemma missing_import_is_reported_witness :
  generate_vite_asset Url.urljoin (sample_config false false "/static/") 2
    "app.js" None
    (loaded_world {[ "app.js" := mkEntry (Some "assets/app.js") None
                                  (Some ["vendor.js"]) ]})
  = (Raise (RuntimeError "Cannot find %s in Vite manifest at %s"
              ["vendor.js"; "static/manifest.json"] None),
     loaded_world {[ "app.js" := mkEntry (Some "assets/app.js") None
                                   (Some ["vendor.js"]) ]}).
Proof.
  apply (missing_import_is_reported unit Url.urljoin
           (sample_config false false "/static/") 0 "app.js" None
           (loaded_world {[ "app.js" := mkEntry (Some "assets/app.js") None
                                         (Some ["vendor.js"]) ]})
           (mkEntry (Some "assets/app.js") None (Some ["vendor.js"]))
           [] "vendor.js" []).
  - reflexivity.
  - reflexivity.
  - reflexivity.
  - reflexivity.
  - intros q Hq. by apply elem_of_nil in Hq.
Defined.

(** In manifest mode an entry without the [file] key makes the call raise
    [KeyError('file')], once its imports have expanded: the links and the
    imported tags built so far are dropped. *)
Theorem missing_file_key_raises_KeyError :
  forall U urljoin cfg fuel path attrs (w : World U) e,
    hot_reload cfg = false ->
    _manifest (loader_cls w) !! path = Some e ->
    file e = None ->
    (forall q, q ∈ imports_list e ->
       exists t, generate_vite_asset urljoin cfg fuel q
                   (Some (effective_attrs attrs)) w = (Ok t, w)) ->
    generate_vite_asset urljoin cfg (S fuel) path attrs w = (Raise (KeyError "file"), w).
Proof.
  intros U urljoin cfg fuel path attrs w e Hh Hm Hf Himports.
  rewrite generate_vite_asset_expansion by exact Hh.
  rewrite expansion_S, Hm.
  destruct (traverse_all_ok
              (fun p => expansion urljoin cfg (_manifest (loader_cls w)) fuel p
                          (Some (effective_attrs attrs)))
              (imports_list e)) as [ts Hts].
  { intros q Hq. destruct (Himports q Hq) as [t Ht]. exists t.
    rewrite generate_vite_asset_expansion in Ht by exact Hh. by injection Ht. }
  rewrite Hts, Hf. reflexivity.
Qed.

Lemma missing_file_key_raises_KeyError_witness :
  generate_vite_asset Url.urljoin (sample_config false false "/static/") 1
    "style.css" None
    (loaded_world {[ "style.css" := mkEntry None (Some ["assets/style.css"]) None ]})
  = (Raise (KeyError "file"),
     loaded_world {[ "style.css" := mkEntry None (Some ["assets/style.css"]) None ]}).
Proof.
  apply (missing_file_key_raises_KeyError unit Url.urljoin
           (sample_config false false "/static/") 0 "style.css" None
           (loaded_world {[ "style.css" := mkEntry None (Some ["assets/style.css"]) None ]})
           (mkEntry None (Some ["assets/style.css"]) None)).
  - reflexivity.
  - reflexivity.
  - reflexivity.
  - intros q Hq. by apply elem_of_nil in Hq.
Defined.

Lemma expansion_local urljoin cfg (m1 m2 : Manifest) fuel :
  forall path a,
    (forall k, rtc (imports_edge m1) path k -> m1 !! k = m2 !! k) ->
    expansion urljoin cfg m1 fuel path a = expansion urljoin cfg m2 fuel path a.
Proof.
  induction fuel as [|fuel IH]; intros path a Hsame; [reflexivity|].
  rewrite !expansion_S. rewrite <- (Hsame path) by apply rtc_refl.
  destruct (m1 !! path) as [e|] eqn:Em; [|reflexivity].
  rewrite (traverse_ext
             (fun p => expansion urljoin cfg m1 fuel p (Some (effective_attrs a)))
             (fun p => expansion urljoin cfg m2 fuel p (Some (effective_attrs a)))).
  - reflexivity.
  - intros q Hq. apply IH. intros k Hk. apply Hsame.
    eapply rtc_l; [|exact Hk]. by exists e.
Qed.

(** The answer for a path depends only on the entries the path reaches
    through imports: two states whose manifests agree on every key reachable
    from the path give the same outcome, whatever else the manifests hold. *)
Theorem unrelated_entries_do_not_matter :
  forall U urljoin cfg fuel path attrs (w1 w2 : World U),
    (forall k, rtc (imports_edge (_manifest (loader_cls w1))) path k ->
               _manifest (loader_cls w1) !! k = _manifest (loader_cls w2) !! k) ->
    fst (generate_vite_asset urljoin cfg fuel path attrs w1)
    = fst (generate_vite_asset urljoin cfg fuel path attrs w2).
Proof.
  intros U urljoin cfg fuel path attrs w1 w2 Hsame.
  destruct (hot_reload cfg) eqn:Hh.
  - destruct fuel; simpl; [reflexivity|]. rewrite Hh. reflexivity.
  - rewrite !generate_vite_asset_expansion by exact Hh. simpl.
    by apply expansion_local.
Qed.

Lemma unrelated_entries_do_not_matter_witness :
  fst (generate_vite_asset Url.urljoin (sample_config false false "/static/") 1
         "main.js" None (loaded_world sample_manifest))
  = fst (generate_vite_asset Url.urljoin (sample_config false false "/static/") 1
           "main.js" None
           (loaded_world (<[ "other.js" := mkEntry None None None ]> sample_manifest))).
Proof.
  apply (unrelated_entries_do_not_matter unit Url.urljoin
           (sample_config false false "/static/") 1 "main.js" None
           (loaded_world sample_manifest)
           (loaded_world (<[ "other.js" := mkEntry None None None ]> sample_manifest))).
  intros k Hk. simpl.
  assert (k = "main.js") as ->.
  { destruct Hk as [|? y ? (e & Em & Hy) _]; [reflexivity|]. simpl in Em.
    unfold sample_manifest in Em. apply lookup_singleton_Some in Em as [_ <-].
    by apply elem_of_nil in Hy. }
  by rewrite lookup_insert_ne.
Defined.

(** ** The engine and its configuration *)

(** What a call of [to_engine] that returns has done. *)
Lemma to_engine_ok {U} json_loads cfg (self : ViteTemplateConfig U) (w w1 : World U) e :
  to_engine json_loads cfg self w = (Ok e, w1) ->
  e = match engine self with
      | EngineClass => mkEngine (next_id w) (directory self)
      | EngineInstance e0 => e0
      end
  /\ next_id w1 = (if isclass (engine self) then S (next_id w) else next_id w)
  /\ events w1 = events w ++ engine_events self (engine_id e).
Proof.
  unfold to_engine, bind, engine_events. intros Hto.
  destruct (engine self) as [|e0] eqn:Heng; simpl.
  - unfold ViteTemplateEngine_new, bind, fresh_id, log, ret in Hto. simpl in Hto.
    destruct (ViteAssetLoader_new json_loads cfg _) as [[[]| |] w3] eqn:Hld;
      try discriminate.
    apply ViteAssetLoader_new_frame in Hld as (_ & Hid & Hev & _). simpl in Hid, Hev.
    destruct (engine_callback self) as [callback|]; simpl in Hto.
    + unfold on_user in Hto. simpl in Hto.
      destruct (callback _ (user w3)) as [[[]| |] u'] eqn:Hcb; try discriminate.
      injection Hto as <- <-. simpl. rewrite Hev, Hid, <- app_assoc. done.
    + injection Hto as <- <-. simpl. rewrite Hev, Hid. done.
  - unfold ret in Hto.
    destruct (engine_callback self) as [callback|]; simpl in Hto.
    + unfold on_user in Hto. simpl in Hto.
      destruct (callback e0 (user w)) as [[[]| |] u'] eqn:Hcb; try discriminate.
      injection Hto as <- <-. simpl. done.
    + injection Hto as <- <-. simpl. rewrite app_nil_r. done.
Qed.

(** [to_engine] itself keeps nothing: two calls in a row each run the
    construction (for a class) and the callback (when there is one).  For a
    class the two engines are different objects; for an instance both calls
    return the instance given. *)
Theorem to_engine_builds_anew :
  forall U json_loads cfg (self : ViteTemplateConfig U) (w w1 w2 : World U) e1 e2,
    to_engine json_loads cfg self w = (Ok e1, w1) ->
    to_engine json_loads cfg self w1 = (Ok e2, w2) ->
    events w2
    = events w ++ engine_events self (engine_id e1) ++ engine_events self (engine_id e2)
    /\ match engine self with
       | EngineClass => e1 <> e2
       | EngineInstance e0 => e1 = e0 /\ e2 = e0
       end.
Proof.
  intros U json_loads cfg self w w1 w2 e1 e2 H1 H2.
  apply to_engine_ok in H1 as (He1 & Hid1 & Hev1).
  apply to_engine_ok in H2 as (He2 & _ & Hev2).
  split; [by rewrite Hev2, Hev1, <- app_assoc|].
  destruct (engine self); [|done].
  simpl in Hid1. rewrite He1, He2, Hid1. intros [= Hid]. lia.
Qed.

Lemma to_engine_builds_anew_witness :
  events (mkWorld ∅ (mkLoaderClass true ∅) 2
            [EvConstruct 0 (DirOne (PStr "templates")); EvCallback 0;
             EvConstruct 1 (DirOne (PStr "templates")); EvCallback 1] tt)
  = events (fresh_world ∅)
    ++ engine_events sample_template_config
         (engine_id (mkEngine 0 (DirOne (PStr "templates"))))
    ++ engine_events sample_template_config
         (engine_id (mkEngine 1 (DirOne (PStr "templates"))))
  /\ match engine sample_template_config with
     | EngineClass =>
         mkEngine 0 (DirOne (PStr "templates")) <> mkEngine 1 (DirOne (PStr "templates"))
     | EngineInstance e0 =>
         mkEngine 0 (DirOne (PStr "templates")) = e0
         /\ mkEngine 1 (DirOne (PStr "templates")) = e0
     end.
Proof.
  apply (to_engine_builds_anew unit sample_json_loads
           (sample_config true false "/static/") sample_template_config
           (fresh_world ∅)
           (mkWorld ∅ (mkLoaderClass true ∅) 1
              [EvConstruct 0 (DirOne (PStr "templates")); EvCallback 0] tt)).
  - reflexivity.
  - reflexivity.
Defined.

(** An engine that [to_engine] builds from the class, for a configuration
    that its constructor accepted, always gets a directory that is not
    missing and not empty. *)
Theorem class_engine_has_directory :
  forall U json_loads cfg c d cb (self : ViteTemplateConfig U) (w w1 : World U) e,
    ViteTemplateConfig_new EngineClass c d cb = Ok self ->
    to_engine json_loads cfg self w = (Ok e, w1) ->
    engine_directory e = d /\ truthy_directory (engine_directory e) = true.
Proof.
  intros U json_loads cfg c d cb self w w1 e Hnew Hto.
  unfold ViteTemplateConfig_new, __post_init__ in Hnew. simpl in Hnew.
  destruct (truthy_directory d) eqn:Hd; simpl in Hnew; [|discriminate].
  injection Hnew as <-.
  apply to_engine_ok in Hto as (-> & _). simpl. done.
Qed.

Lemma class_engine_has_directory_witness :
  engine_directory (mkEngine 0 (DirOne (PStr "templates"))) = DirOne (PStr "templates")
  /\ truthy_directory (engine_directory (mkEngine 0 (DirOne (PStr "templates")))) = true.
Proof.
  apply (class_engine_has_directory unit sample_json_loads
           (sample_config true false "/static/") (sample_config true false "/static/")
           (DirOne (PStr "templates")) None
           (mkTemplateConfig EngineClass (sample_config true false "/static/")
              (DirOne (PStr "templates")) None None)
           (fresh_world ∅) (mkWorld ∅ (mkLoaderClass true ∅) 1
                              [EvConstruct 0 (DirOne (PStr "templates"))] tt)).
  - reflexivity.
  - reflexivity.
Defined.

(** From the manifest on disk to the tags in a template: in manifest mode,
    with no loader yet and a manifest file that [json.loads] parses to [m],
    constructing the engine succeeds and stores [m] in the loader, and
    afterwards [resource] returns, marked as markup, exactly the tag sets
    that [m] specifies. *)
Theorem engine_serves_manifest_from_disk :
  forall U urljoin json_loads cfg d (w : World U) content m,
    hot_reload cfg = false ->
    _instance (loader_cls w) = false ->
    fs w !! path_div (static_dir cfg) MANIFEST_NAME = Some content ->
    json_loads content = inr m ->
    exists w1,
      ViteTemplateEngine_new json_loads cfg d w = (Ok (mkEngine (next_id w) d), w1)
      /\ loader_cls w1 = mkLoaderClass true m
      /\ forall path attrs s,
           (exists fuel,
              resource urljoin cfg fuel (mkEngine (next_id w) d) path attrs w1
              = (Ok (mkMarkup s), w1))
           <-> spec_asset_tags urljoin cfg m (effective_attrs attrs) path s.
Proof.
  intros U urljoin json_loads cfg d w content m Hh Hi Hf Hj.
  eexists. split; [|split].
  - unfold ViteTemplateEngine_new, bind, fresh_id, log. simpl.
    unfold ViteAssetLoader_new, bind, get_loader, parse_manifest, bind, open_read,
      manifest_path. simpl.
    rewrite Hi, Hh. cbn. rewrite Hf, Hj. reflexivity.
  - reflexivity.
  - intros path attrs s. unfold resource, bind. split.
    + intros [fuel Hr]. rewrite generate_vite_asset_expansion in Hr by exact Hh.
      simpl in Hr.
      destruct (expansion urljoin cfg m fuel path attrs) as [s'| |] eqn:He;
        try discriminate.
      unfold ret in Hr. injection Hr as <-. by eapply expansion_sound.
    + intros Hs. apply expansion_complete in Hs as [fuel Hfuel]. exists fuel.
      rewrite generate_vite_asset_expansion by exact Hh. simpl. rewrite Hfuel.
      reflexivity.
Qed.

Lemma engine_serves_manifest_from_disk_witness :
  exists w1,
    ViteTemplateEngine_new sample_json_loads (sample_config false false "/static/")
      (DirOne (PStr "templates")) (fresh_world sample_files)
    = (Ok (mkEngine (next_id (fresh_world sample_files)) (DirOne (PStr "templates"))), w1)
    /\ loader_cls w1 = mkLoaderClass true sample_manifest
    /\ forall path attrs s,
         (exists fuel,
            resource Url.urljoin (sample_config false false "/static/") fuel
              (mkEngine (next_id (fresh_world sample_files)) (DirOne (PStr "templates")))
              path attrs w1
            = (Ok (mkMarkup s), w1))
         <-> spec_asset_tags Url.urljoin (sample_config false false "/static/")
               sample_manifest (effective_attrs attrs) path s.
Proof.
  apply (engine_serves_manifest_from_disk unit Url.urljoin sample_json_loads
           (sample_config false false "/static/") (DirOne (PStr "templates"))
           (fresh_world sample_files) sample_manifest_text sample_manifest).
  - reflexivity.
  - reflexivity.
  - reflexivity.
  - reflexivity.
Defined.



(** ** The dev-server runner *)





Lemma log_chunks (chunks : list string) (lg : Logging) :
  fold_left
    (fun lg text =>
       mkLogging (configured lg)
         (records lg ++ [LogInfo "Vite" (Some (remove_newlines text))]))
    chunks lg
  = mkLogging (configured lg)
      (records lg ++ map (fun text => LogInfo "Vite" (Some (remove_newlines text))) chunks).
Proof.
  revert lg. induction chunks as [|x l IH]; intros lg; simpl.
  - rewrite app_nil_r. by destruct lg.
  - rewrite IH. simpl. by rewrite <- app_assoc.
Qed.



(** [run_vite] configures logging, keeps the records that were there, and
    always writes [Vite Service stopped.] as its last record, however the
    run ends.  A [KeyboardInterrupt] never leaves it: the call then returns
    normally.  Any other exception of the run leaves it unchanged. *)
Theorem run_vite_logs_stop_and_swallows_interrupt :
  forall U open_process (template_config : ViteTemplateConfig U) lg,
    configured (snd (run_vite open_process template_config lg)) = true
    /\ (exists written,
          records (snd (run_vite open_process template_config lg))
          = records lg ++ written ++ [LogInfo "Vite Service stopped." None])
    /\ fst (run_vite open_process template_config lg) <> Some KeyboardInterrupt
    /\ (forall e,
          fst (run_vite open_process template_config lg) = Some (OtherException e)
          <-> fst (_run_vite open_process template_config (mkLogging true (records lg)))
              = Some (OtherException e))
    /\ (fst (run_vite open_process template_config lg) = None
        <-> fst (_run_vite open_process template_config (mkLogging true (records lg)))
            = None
            \/ fst (_run_vite open_process template_config (mkLogging true (records lg)))
               = Some KeyboardInterrupt).
Proof.
  intros U open_process template_config lg. unfold run_vite.
  destruct (_run_vite open_process template_config (mkLogging true (records lg)))
    as [r lg'] eqn:Hrun.
  assert (Hlg : configured lg' = true
                /\ exists written, records lg' = records lg ++ written).
  { unfold _run_vite in Hrun.
    destruct (open_process (run_command (config template_config))) as [e|vite_process].
    - injection Hrun as _ <-. split; [reflexivity|]. exists []. by rewrite app_nil_r.
    - rewrite log_chunks in Hrun. injection Hrun as _ <-. split; [reflexivity|].
      by eexists. }
  destruct Hlg as [Hc [written Hw]].
  assert (Hrec : exists written',
             records lg' ++ [LogInfo "Vite Service stopped." None]
             = records lg ++ written' ++ [LogInfo "Vite Service stopped." None]).
  { exists written. by rewrite Hw, <- app_assoc. }
  destruct r as [[|x]|]; simpl; repeat split; try done; try (by intros [|]);
    try (by left); try (by right); intros [?|?]; done.
Qed.

(** ** Engines and the shared loader *)

(** All engines share the one loader: after a first engine has been
    constructed, constructing another one returns a new engine, cannot fail
    and reads no file, so it sees the manifest loaded the first time even if
    the file on disk has changed or is gone. *)
Theorem engines_share_the_loader :
  forall U json_loads cfg d1 d2 (w w1 : World U) e1,
    ViteTemplateEngine_new json_loads cfg d1 w = (Ok e1, w1) ->
    forall w2 : World U,
      loader_cls w2 = loader_cls w1 ->
      ViteTemplateEngine_new json_loads cfg d2 w2
      = (Ok (mkEngine (next_id w2) d2),
         mkWorld (fs w2) (loader_cls w1) (S (next_id w2))
           (events w2 ++ [EvConstruct (next_id w2) d2]) (user w2)).
Proof.
  intros U json_loads cfg d1 d2 w w1 e1 Hnew w2 Hcls.
  assert (Hinst : _instance (loader_cls w1) = true).
  { unfold ViteTemplateEngine_new, bind, fresh_id, log in Hnew. simpl in Hnew.
    destruct (ViteAssetLoader_new json_loads cfg _) as [[[]| |] w3] eqn:Hld;
      try discriminate.
    unfold ret in Hnew. injection Hnew as _ <-.
    unfold ViteAssetLoader_new, bind, get_loader in Hld. simpl in Hld.
    destruct (_instance (loader_cls w)) eqn:Hi; simpl in Hld.
    - injection Hld as <-. exact Hi.
    - destruct (parse_manifest json_loads cfg _) as [[m| |] w'] eqn:Hp;
        try discriminate.
      unfold set_loader in Hld. by injection Hld as <-. }
  unfold ViteTemplateEngine_new, bind, fresh_id, log. simpl.
  unfold ViteAssetLoader_new, bind, get_loader. simpl.
  rewrite Hcls, Hinst. reflexivity.
Qed.

Lemma engines_share_the_loader_witness :
  ViteTemplateEngine_new sample_json_loads (sample_config false false "/static/")
    (DirOne (PStr "other"))
    (mkWorld ∅ (mkLoaderClass true sample_manifest) 1
       [EvConstruct 0 (DirOne (PStr "templates"))] tt)
  = (Ok (mkEngine 1 (DirOne (PStr "other"))),
     mkWorld ∅ (mkLoaderClass true sample_manifest) 2
       ([EvConstruct 0 (DirOne (PStr "templates"))]
        ++ [EvConstruct 1 (DirOne (PStr "other"))]) tt).
Proof.
  apply (engines_share_the_loader unit sample_json_loads
           (sample_config false false "/static/") (DirOne (PStr "templates"))
           (DirOne (PStr "other")) (fresh_world sample_files)
           (mkWorld sample_files (mkLoaderClass true sample_manifest) 1
              [EvConstruct 0 (DirOne (PStr "templates"))] tt)
           (mkEngine 0 (DirOne (PStr "templates")))).
  - reflexivity.
  - reflexivity.
Defined.

(** With [hot_reload] on nothing on disk is needed: from a state without
    loader and whatever the files, constructing the engine succeeds and
    stores the empty manifest, and afterwards [resource] answers every path
    with the dev-server script tag. *)
Theorem dev_mode_needs_no_manifest :
  forall U urljoin json_loads cfg d (w : World U),
    hot_reload cfg = true ->
    _instance (loader_cls w) = false ->
    exists w1,
      ViteTemplateEngine_new json_loads cfg d w = (Ok (mkEngine (next_id w) d), w1)
      /\ loader_cls w1 = mkLoaderClass true ∅
      /\ forall fuel path attrs,
           resource urljoin cfg (S fuel) (mkEngine (next_id w) d) path attrs w1
           = (Ok (mkMarkup
                    (_script_tag
                       (urljoin (protocol cfg +:+ "://" +:+ host cfg +:+ ":"
                                 +:+ str_of_int (port cfg))
                          (urljoin (static_url cfg) path))
                       (Some [("type", "module"); ("async", EmptyString);
                              ("defer", EmptyString)]))),
              w1).
Proof.
  intros U urljoin json_loads cfg d w Hh Hi.
  eexists. split; [|split].
  - unfold ViteTemplateEngine_new, bind, fresh_id, log. simpl.
    unfold ViteAssetLoader_new, bind, get_loader, parse_manifest. simpl.
    rewrite Hi, Hh. reflexivity.
  - reflexivity.
  - intros fuel path attrs. unfold resource, bind. simpl. rewrite Hh. reflexivity.
Qed.

Lemma dev_mode_needs_no_manifest_witness :
  exists w1,
    ViteTemplateEngine_new sample_json_loads (sample_config true false "/static/")
      (DirOne (PStr "templates")) (fresh_world ∅)
    = (Ok (mkEngine (next_id (fresh_world ∅)) (DirOne (PStr "templates"))), w1)
    /\ loader_cls w1 = mkLoaderClass true ∅
    /\ forall fuel path attrs,
         resource Url.urljoin (sample_config true false "/static/") (S fuel)
           (mkEngine (next_id (fresh_world ∅)) (DirOne (PStr "templates")))
           path attrs w1
         = (Ok (mkMarkup
                  (_script_tag
                     (Url.urljoin
                        (protocol (sample_config true false "/static/") +:+ "://"
                         +:+ host (sample_config true false "/static/") +:+ ":"
                         +:+ str_of_int (port (sample_config true false "/static/")))
                        (Url.urljoin (static_url (sample_config true false "/static/"))
                           path))
                     (Some [("type", "module"); ("async", EmptyString);
                            ("defer", EmptyString)]))),
            w1).
Proof.
  apply (dev_mode_needs_no_manifest unit Url.urljoin sample_json_loads
           (sample_config true false "/static/") (DirOne (PStr "templates"))
           (fresh_world ∅)).
  - reflexivity.
  - reflexivity.
Defined.
